(** * Profile lifecycle bot: the intro summary pipeline and the intro
    interaction handlers

    Shallow embedding of
    - [utils/aiIntroSummary.js]: [createFallbackSummary],
      [generateIntroSummary], [getExperienceColor], [getExperienceEmoji];
    - [handlers/introInteractions.js]: [handleIntroButton],
      [handleIntroModal], [handleEditProfileModal],
      [handleUpdateIntroButton], [handleDeleteIntroButton],
      [handleConfirmDeleteIntro], [handleCancelDeleteIntro];
    - [index.js]: the routing of button presses and modal submissions by
      custom id.

    JavaScript strings are sequences of UTF-16 code units, values are the
    values [JSON.parse] can build, and the handlers run in a small
    state-and-exception monad over the profile store, the profile channel
    and the replies sent to the acting user. *)

From Stdlib Require Import NArith ZArith Strings.Byte.
From stdpp Require Import gmap list option.

Local Open Scope N_scope.

(** ** JavaScript strings *)

(** A string is its list of UTF-16 code units. *)
Abbreviation jstring := (list N).

(** Literals are written in UTF-8 in this file; [utf16_of_utf8] turns the
    bytes of a (well-formed) literal into code units, with a surrogate
    pair for a code point above the basic plane. *)
Fixpoint utf16_of_utf8 (bs : list N) : jstring :=
  match bs with
  | [] => []
  | b0 :: t0 =>
    if b0 <? 128 then b0 :: utf16_of_utf8 t0
    else if b0 <? 224 then
      match t0 with
      | b1 :: t1 => (N.land b0 31 * 64 + N.land b1 63) :: utf16_of_utf8 t1
      | _ => []
      end
    else if b0 <? 240 then
      match t0 with
      | b1 :: b2 :: t2 =>
        (N.land b0 15 * 4096 + N.land b1 63 * 64 + N.land b2 63)
          :: utf16_of_utf8 t2
      | _ => []
      end
    else
      match t0 with
      | b1 :: b2 :: b3 :: t3 =>
        let cp := N.land b0 7 * 262144 + N.land b1 63 * 4096
                  + N.land b2 63 * 64 + N.land b3 63 in
        let v := cp - 65536 in
        (55296 + v / 1024) :: (56320 + v mod 1024) :: utf16_of_utf8 t3
      | _ => []
      end
  end.

Definition jstring_of_bytes (bs : list Byte.byte) : jstring :=
  utf16_of_utf8 (map Byte.to_N bs).

Definition bytes_of_jstring (s : jstring) : option (list Byte.byte) :=
  mapM (fun u => if u <? 128 then Byte.of_N u else None) s.

Declare Scope jstring_scope.
Delimit Scope jstring_scope with js.
String Notation jstring jstring_of_bytes bytes_of_jstring : jstring_scope.
Local Open Scope jstring_scope.

(** Code units the program and the JSON grammar name. *)
Definition TAB : N := 9.
Definition LF : N := 10.
Definition CR : N := 13.
Definition SPACE : N := 32.
Definition QUOTE : N := 34.
Definition PLUS : N := 43.
Definition COMMA : N := 44.
Definition MINUS : N := 45.
Definition DOT : N := 46.
Definition SLASH : N := 47.
Definition COLON : N := 58.
Definition LBRACKET : N := 91.
Definition BACKSLASH : N := 92.
Definition RBRACKET : N := 93.
Definition UNDERSCORE : N := 95.
Definition BACKTICK : N := 96.
Definition LBRACE : N := 123.
Definition RBRACE : N := 125.

(** [String.prototype.trim] removes WhiteSpace and LineTerminator code
    units from both ends. *)
Definition is_js_space (c : N) : bool :=
  (9 <=? c) && (c <=? 13) || (c =? 32) || (c =? 160) || (c =? 5760)
  || (8192 <=? c) && (c <=? 8202) || (c =? 8232) || (c =? 8233)
  || (c =? 8239) || (c =? 8287) || (c =? 12288) || (c =? 65279).

Fixpoint trim_start (s : jstring) : jstring :=
  match s with
  | c :: t => if is_js_space c then trim_start t else s
  | [] => []
  end.

Definition trim (s : jstring) : jstring :=
  reverse (trim_start (reverse (trim_start s))).

(** [s.split(sep)] for a one-unit separator. *)
Fixpoint split_go (sep : N) (cur : jstring) (s : jstring) : list jstring :=
  match s with
  | [] => [reverse cur]
  | c :: t =>
    if c =? sep then reverse cur :: split_go sep [] t
    else split_go sep (c :: cur) t
  end.

Definition split (sep : N) (s : jstring) : list jstring := split_go sep [] s.

(** ** JavaScript values *)

(** The values [JSON.parse] builds, and [undefined] for a property that is
    not there. A number keeps its decimal literal exactly, as [m * 10^e]. *)
#[warnings="-register-all"]
Inductive JsVal :=
| VUndefined
| VNull
| VBool (b : bool)
| VNum (m e : Z)
| VStr (s : jstring)
| VArr (items : list JsVal)
| VObj (props : list (jstring * JsVal)).

(** A decimal literal reads as the number zero when it is zero or rounds to
    zero as a double, that is when its magnitude is at most [2^-1075]. *)
Definition num_is_zero (m e : Z) : bool :=
  ((m =? 0) || (e <? 0) && (Z.abs m * 2 ^ 1075 <=? 10 ^ (- e)))%Z.

(** ToBoolean. *)
Definition truthy (v : JsVal) : bool :=
  match v with
  | VUndefined | VNull => false
  | VBool b => b
  | VNum m e => negb (num_is_zero m e)
  | VStr s => match s with [] => false | _ => true end
  | VArr _ | VObj _ => true
  end.

(** [a || b]. *)
Definition js_or (a b : JsVal) : JsVal := if truthy a then a else b.

(** [s || d] for a string-valued field that may be missing. *)
Definition str_or (s : option jstring) (d : jstring) : jstring :=
  match s with
  | Some (c :: t) => c :: t
  | _ => d
  end.

(** Own property of an object built by [JSON.parse]: with a repeated key
    the last occurrence wins. *)
Definition own_prop (k : jstring) (props : list (jstring * JsVal)) : JsVal :=
  match find (fun p => bool_decide (p.1 = k)) (reverse props) with
  | Some p => p.2
  | None => VUndefined
  end.

(** [v.k] for a key [k] that no prototype defines ([summary],
    [experienceLevel], [skills]): [None] is the TypeError of reading a
    property of [null] or [undefined]. *)
Definition get_prop (v : JsVal) (k : jstring) : option JsVal :=
  match v with
  | VUndefined | VNull => None
  | VObj props => Some (own_prop k props)
  | _ => Some VUndefined
  end.

(** ** JSON.parse *)

(** *** Tokens *)

Inductive token :=
| TLBrace | TRBrace | TLBracket | TRBracket | TColon | TComma
| TString (s : jstring)
| TNumber (m e : Z)
| TTrue | TFalse | TNull.

Definition is_json_space (c : N) : bool :=
  (c =? SPACE) || (c =? TAB) || (c =? LF) || (c =? CR).

Definition is_digit (c : N) : bool := (48 <=? c) && (c <=? 57).

Definition hex_value (c : N) : option N :=
  if is_digit c then Some (c - 48)
  else if (65 <=? c) && (c <=? 70) then Some (c - 55)
  else if (97 <=? c) && (c <=? 102) then Some (c - 87)
  else None.

(** The single-character escapes of a JSON string. *)
Definition escape_value (c : N) : option N :=
  if c =? QUOTE then Some QUOTE
  else if c =? BACKSLASH then Some BACKSLASH
  else if c =? SLASH then Some SLASH
  else if c =? 98 then Some 8
  else if c =? 102 then Some 12
  else if c =? 110 then Some LF
  else if c =? 114 then Some CR
  else if c =? 116 then Some TAB
  else None.

(** *** Number literals

    An optional minus sign; an integer part, which is a single zero or
    starts with a non-zero digit; an optional fraction, a dot and at least
    one digit; an optional exponent, e or E, an optional sign and at least
    one digit. *)

Fixpoint span_digits (s : jstring) : list N * jstring :=
  match s with
  | c :: t =>
    if is_digit c then let (ds, r) := span_digits t in (c - 48 :: ds, r)
    else ([], s)
  | [] => ([], [])
  end.

Definition digits_value (ds : list N) : Z :=
  fold_left (fun acc d => (acc * 10 + Z.of_N d)%Z) ds 0%Z.

Definition read_sign (s : jstring) : bool * jstring :=
  match s with
  | c :: t => if c =? MINUS then (true, t) else (false, s)
  | [] => (false, s)
  end.

Definition read_fraction (s : jstring) : option (list N * jstring) :=
  match s with
  | c :: t =>
    if c =? DOT then
      match span_digits t with
      | ([], _) => None
      | (ds, r) => Some (ds, r)
      end
    else Some ([], s)
  | [] => Some ([], s)
  end.

Definition read_exponent (s : jstring) : option (Z * jstring) :=
  match s with
  | c :: t =>
    if (c =? 101) || (c =? 69) then
      let (neg, t') :=
        match t with
        | sg :: u =>
          if sg =? MINUS then (true, u)
          else if sg =? PLUS then (false, u) else (false, t)
        | [] => (false, t)
        end in
      match span_digits t' with
      | ([], _) => None
      | (ds, r) =>
        Some ((if neg then - digits_value ds else digits_value ds)%Z, r)
      end
    else Some (0%Z, s)
  | [] => Some (0%Z, s)
  end.

Definition number_of_lexeme (s : jstring) : option (Z * Z) :=
  let (neg, s1) := read_sign s in
  match span_digits s1 with
  | ([], _) => None
  | (d :: ds, s2) =>
    if (d =? 0) && negb (bool_decide (ds = [])) then None
    else
      '(frac, s3) ← read_fraction s2;
      '(ex, s4) ← read_exponent s3;
      match s4 with
      | [] =>
        let m := digits_value (d :: ds ++ frac) in
        Some ((if neg then - m else m)%Z, (ex - Z.of_nat (length frac))%Z)
      | _ => None
      end
  end.

Definition is_number_unit (c : N) : bool :=
  is_digit c || (c =? MINUS) || (c =? PLUS) || (c =? DOT)
  || (c =? 101) || (c =? 69).

(** *** The lexer, one code unit at a time *)

Inductive lexstate :=
| LIdle
| LString (acc : jstring)
| LEscape (acc : jstring)
| LUnicode (acc : jstring) (hex : list N)
| LNumber (acc : jstring)
| LLiteral (rest : jstring) (t : token).

(** A code unit met between tokens. *)
Definition lex_idle (c : N) : option (lexstate * list token) :=
  if is_json_space c then Some (LIdle, [])
  else if c =? LBRACE then Some (LIdle, [TLBrace])
  else if c =? RBRACE then Some (LIdle, [TRBrace])
  else if c =? LBRACKET then Some (LIdle, [TLBracket])
  else if c =? RBRACKET then Some (LIdle, [TRBracket])
  else if c =? COLON then Some (LIdle, [TColon])
  else if c =? COMMA then Some (LIdle, [TComma])
  else if c =? QUOTE then Some (LString [], [])
  else if is_digit c || (c =? MINUS) then Some (LNumber [c], [])
  else if c =? 116 then Some (LLiteral "rue" TTrue, [])
  else if c =? 102 then Some (LLiteral "alse" TFalse, [])
  else if c =? 110 then Some (LLiteral "ull" TNull, [])
  else None.

Definition finish_number (acc : jstring) : option token :=
  '(m, e) ← number_of_lexeme (reverse acc); Some (TNumber m e).

Definition lex_step (st : lexstate) (c : N) : option (lexstate * list token) :=
  match st with
  | LIdle => lex_idle c
  | LString acc =>
    if c =? QUOTE then Some (LIdle, [TString (reverse acc)])
    else if c =? BACKSLASH then Some (LEscape acc, [])
    else if c <? 32 then None
    else Some (LString (c :: acc), [])
  | LEscape acc =>
    if c =? 117 then Some (LUnicode acc [], [])
    else u ← escape_value c; Some (LString (u :: acc), [])
  | LUnicode acc hex =>
    h ← hex_value c;
    match hex with
    | [h2; h1; h0] =>
      Some (LString (h0 * 4096 + h1 * 256 + h2 * 16 + h :: acc), [])
    | _ => Some (LUnicode acc (h :: hex), [])
    end
  | LNumber acc =>
    if is_number_unit c then Some (LNumber (c :: acc), [])
    else
      n ← finish_number acc;
      '(st', ts) ← lex_idle c;
      Some (st', n :: ts)
  | LLiteral rest t =>
    match rest with
    | [] => None
    | [r] => if c =? r then Some (LIdle, [t]) else None
    | r :: rest' => if c =? r then Some (LLiteral rest' t, []) else None
    end
  end.

Fixpoint lex_from (st : lexstate) (s : jstring) : option (list token) :=
  match s with
  | [] =>
    match st with
    | LIdle => Some []
    | LNumber acc => n ← finish_number acc; Some [n]
    | _ => None
    end
  | c :: t =>
    '(st', ts) ← lex_step st c;
    rest ← lex_from st' t;
    Some (ts ++ rest)
  end.

Definition lex (s : jstring) : option (list token) := lex_from LIdle s.

(** *** The parser, one token at a time *)

(** A container being filled: an array with its items so far, or an
    object with its properties so far and the key awaiting its value. *)
Inductive frame :=
| FArr (items : list JsVal)
| FObj (props : list (jstring * JsVal)) (key : jstring).

Inductive pstate :=
| PValue (stk : list frame)
| PArrFirst (stk : list frame)
| PArrNext (items : list JsVal) (stk : list frame)
| PObjFirst (stk : list frame)
| PObjKey (props : list (jstring * JsVal)) (stk : list frame)
| PColon (props : list (jstring * JsVal)) (key : jstring) (stk : list frame)
| PObjNext (props : list (jstring * JsVal)) (stk : list frame)
| PDone (v : JsVal).

(** A finished value goes to the innermost open container. *)
Definition deliver (v : JsVal) (stk : list frame) : pstate :=
  match stk with
  | [] => PDone v
  | FArr items :: stk' => PArrNext (v :: items) stk'
  | FObj props key :: stk' => PObjNext ((key, v) :: props) stk'
  end.

Definition parse_value (stk : list frame) (t : token) : option pstate :=
  match t with
  | TLBracket => Some (PArrFirst stk)
  | TLBrace => Some (PObjFirst stk)
  | TString s => Some (deliver (VStr s) stk)
  | TNumber m e => Some (deliver (VNum m e) stk)
  | TTrue => Some (deliver (VBool true) stk)
  | TFalse => Some (deliver (VBool false) stk)
  | TNull => Some (deliver VNull stk)
  | _ => None
  end.

Definition parse_step (st : pstate) (t : token) : option pstate :=
  match st with
  | PValue stk => parse_value stk t
  | PArrFirst stk =>
    match t with
    | TRBracket => Some (deliver (VArr []) stk)
    | _ => parse_value (FArr [] :: stk) t
    end
  | PArrNext items stk =>
    match t with
    | TComma => Some (PValue (FArr items :: stk))
    | TRBracket => Some (deliver (VArr (reverse items)) stk)
    | _ => None
    end
  | PObjFirst stk =>
    match t with
    | TRBrace => Some (deliver (VObj []) stk)
    | TString k => Some (PColon [] k stk)
    | _ => None
    end
  | PObjKey props stk =>
    match t with
    | TString k => Some (PColon props k stk)
    | _ => None
    end
  | PColon props k stk =>
    match t with
    | TColon => Some (PValue (FObj props k :: stk))
    | _ => None
    end
  | PObjNext props stk =>
    match t with
    | TComma => Some (PObjKey props stk)
    | TRBrace => Some (deliver (VObj (reverse props)) stk)
    | _ => None
    end
  | PDone _ => None
  end.

Fixpoint parse_from (st : pstate) (ts : list token) : option JsVal :=
  match ts with
  | [] => match st with PDone v => Some v | _ => None end
  | t :: ts' => st' ← parse_step st t; parse_from st' ts'
  end.

(** [JSON.parse(text)]: [None] is the SyntaxError. *)
Definition JSON_parse (text : jstring) : option JsVal :=
  ts ← lex text; parse_from (PValue []) ts.

(** JSON text is full of double quotes; [dq] lets a literal write them as
    single quotes. *)
Definition dq (s : jstring) : jstring :=
  map (fun c => if c =? 39 then QUOTE else c) s.

(** ** utils/aiIntroSummary.js *)

(** The form fields of an introduction; a field may be missing. *)
Record IntroData := {
  name : option jstring;
  role : option jstring;
  institution : option jstring;
  interests : option jstring;
  details : option jstring
}.

(** The generated part of a profile. [summary] and [skills] are whatever
    the generator's JSON holds under those keys, when that is truthy. *)
Record Summary := {
  summary : JsVal;
  experienceLevel : jstring;
  skills : JsVal
}.

Definition createFallbackSummary (introData : IntroData) : Summary :=
  let name := str_or (name introData) "This member" in
  let interests := str_or (interests introData) "AI and technology" in
  {| summary :=
       VStr (name ++ " is interested in " ++ interests
             ++ " and wants to learn and grow in the AI community.");
     experienceLevel := "Beginner";
     skills := VStr "Not specified" |}.

(** What the call to the generator came to, up to the extraction of
    [responseText]. The prompt built from the form fields only feeds that
    call. *)
Inductive GenOutcome :=
| NoClient
    (** [initializeAI()] returned [null]: no API key, or the client
        constructor threw *)
| CallThrows (message : jstring)
    (** [getGenerativeModel], [generateContent] or [response.text()]
        threw or rejected *)
| NoResponseText
    (** neither [response.text] nor a first candidate part with text *)
| ResponseText (responseText : jstring).

(** [{success: true, summary, experienceLevel, skills}] or
    [{success: false, error, fallback}]. *)
Inductive AiResult :=
| AiSuccess (result : Summary)
| AiFailure (error : jstring) (fallback : Summary).

(** [x.replace(/```json\n?/gi, '')] *)
Definition is_json_fence (c1 c2 c3 j s o n : N) : bool :=
  (c1 =? BACKTICK) && (c2 =? BACKTICK) && (c3 =? BACKTICK)
  && ((j =? 106) || (j =? 74)) && ((s =? 115) || (s =? 83))
  && ((o =? 111) || (o =? 79)) && ((n =? 110) || (n =? 78)).

Fixpoint strip_json_fences (x : jstring) : jstring :=
  match x with
  | [] => []
  | c1 :: t =>
    match t with
    | c2 :: c3 :: j :: s :: o :: n :: r =>
      if is_json_fence c1 c2 c3 j s o n then
        match r with
        | nl :: r' => if nl =? LF then strip_json_fences r'
                      else strip_json_fences r
        | [] => []
        end
      else c1 :: strip_json_fences t
    | _ => c1 :: strip_json_fences t
    end
  end.

(** [x.replace(/```\n?/g, '')] *)
Fixpoint strip_fences (x : jstring) : jstring :=
  match x with
  | [] => []
  | c1 :: t =>
    match t with
    | c2 :: c3 :: r =>
      if (c1 =? BACKTICK) && (c2 =? BACKTICK) && (c3 =? BACKTICK) then
        match r with
        | nl :: r' => if nl =? LF then strip_fences r' else strip_fences r
        | [] => []
        end
      else c1 :: strip_fences t
    | _ => c1 :: strip_fences t
    end
  end.

(** The suffix of [x] that starts at the first [c], when [c] occurs. *)
Fixpoint from_first (c : N) (x : jstring) : option jstring :=
  match x with
  | [] => None
  | d :: t => if d =? c then Some x else from_first c t
  end.

(** [x.replace(/^[^{]*({)/s, '$1')]: drop what precedes the first opening
    brace; no opening brace, no match. *)
Definition drop_before_first_brace (x : jstring) : jstring :=
  default x (from_first LBRACE x).

(** [x.replace(/(})[^}]*$/s, '$1')]: the only closing brace followed by no
    other one up to the end is the last one; drop what follows it. *)
Definition drop_after_last_brace (x : jstring) : jstring :=
  default x (reverse <$> from_first RBRACE (reverse x)).

Definition clean_response (responseText : jstring) : jstring :=
  trim (drop_after_last_brace (drop_before_first_brace
    (strip_fences (strip_json_fences responseText)))).

Definition validLevels : list jstring := ["Beginner"; "Builder"; "Pro"].

(** [validLevels.includes(v) ? v : 'Beginner']: [includes] compares with
    SameValueZero, so only a string can be found. *)
Definition coerce_level (v : JsVal) : jstring :=
  match v with
  | VStr s => if bool_decide (s ∈ validLevels) then s else "Beginner"
  | _ => "Beginner"
  end.

(** The object built in the [catch] of [JSON.parse]. *)
Definition text_as_summary (responseText : jstring) : JsVal :=
  VObj [("summary", VStr (take 400 responseText));
        ("experienceLevel", VStr "Beginner");
        ("skills", VStr "Not specified")].

(** From [const validLevels] to the [return] of the [try] block; [None] is
    a TypeError on a [parsed] that has no properties to read. *)
Definition summary_of_parsed (parsed : JsVal) (introData : IntroData)
  : option Summary :=
  level ← get_prop parsed "experienceLevel";
  let fallback := createFallbackSummary introData in
  parsed_summary ← get_prop parsed "summary";
  parsed_skills ← get_prop parsed "skills";
  Some {| summary := js_or parsed_summary (summary fallback);
          experienceLevel := coerce_level level;
          skills := js_or parsed_skills (skills fallback) |}.

Definition ERR_NO_CLIENT : jstring := "AI service not available".
Definition ERR_NO_TEXT : jstring := "Unable to extract response from Gemini".
Definition ERR_EMPTY : jstring := "Empty response from Gemini".
(** The engine's message for the TypeError. *)
Definition ERR_TYPE : jstring :=
  "Cannot read properties of null (reading 'experienceLevel')".

Definition generateIntroSummary (gen : GenOutcome) (introData : IntroData)
  : AiResult :=
  match gen with
  | NoClient => AiFailure ERR_NO_CLIENT (createFallbackSummary introData)
  | CallThrows message =>
    AiFailure message (createFallbackSummary introData)
  | NoResponseText => AiFailure ERR_NO_TEXT (createFallbackSummary introData)
  | ResponseText responseText =>
    if bool_decide (responseText = []) || bool_decide (trim responseText = [])
    then AiFailure ERR_EMPTY (createFallbackSummary introData)
    else
      let cleaned := clean_response responseText in
      let parsed :=
        match JSON_parse cleaned with
        | Some v => v
        | None => text_as_summary responseText
        end in
      match summary_of_parsed parsed introData with
      | Some result => AiSuccess result
      | None => AiFailure ERR_TYPE (createFallbackSummary introData)
      end
  end.

(** The caller's choice between the result and its fallback
    ([handleIntroModal], [if (aiResult.success) ... else ...]). *)
Definition chosen_summary (aiResult : AiResult) : Summary :=
  match aiResult with
  | AiSuccess result => result
  | AiFailure _ fallback => fallback
  end.

(** [colors[level] || 0x4A90E2], for a [level] that is no key every
    object inherits ([constructor], [toString], ...): for such a key the
    lookup gives the inherited property, not a colour. The handlers call
    it with the level of the pipeline, one of the three. *)
Definition getExperienceColor (level : jstring) : Z :=
  if bool_decide (level = "Beginner") then 0x00FF7F
  else if bool_decide (level = "Builder") then 0xFFD700
  else if bool_decide (level = "Pro") then 0xFF0000
  else 0x4A90E2.

(** [emojis[level] || '🔵'], for a [level] that is no inherited key, as
    for [getExperienceColor]. *)
Definition getExperienceEmoji (level : jstring) : jstring :=
  if bool_decide (level = "Beginner") then "🟢"
  else if bool_decide (level = "Builder") then "🟡"
  else if bool_decide (level = "Pro") then "🔴"
  else "🔵".

(** ** The world of the handlers *)

(** Modelled from the spec: the profile store of [utils/updateProfile]
    ([getUserProfile], [saveUserProfile], [deleteUserProfile]) is not among
    the sources; it is the key-value store of section 6, one record per
    user id, holding what [saveUserProfile] is given. *)
Module Profile.
Record t := {
  messageId : option jstring;
  introData : IntroData;
  summary : JsVal;
  experienceLevel : jstring;
  skills : JsVal
}.
End Profile.

Record EmbedField := {
  fieldName : jstring;
  fieldValue : JsVal;
  inline : bool
}.

(** What [handleIntroModal] hands to the [EmbedBuilder]; the description
    is the mention of [mention] followed by [description]. *)
Record Embed := {
  color : Z;
  title : jstring;
  mention : jstring;
  description : JsVal;
  embedFields : list EmbedField;
  footer : jstring
}.

(** A button, with the custom id and the label it is built with. *)
Record Button := {
  buttonId : jstring;
  label : jstring
}.

(** A message of the profile channel. *)
Record Artifact := {
  embed : Embed;
  components : list Button
}.

(** What the acting user is shown. *)
Inductive Reply :=
| EditReply (content : jstring)
| ReplyEphemeral (content : jstring) (buttons : list Button)
| Update (content : jstring)
| ShowModal (prefill : option IntroData)
| SafeError (content : jstring).

Record World := {
  store : gmap jstring Profile.t;
  channel : gmap jstring Artifact;
  replies : list Reply
}.

(** The five text inputs of the modal built by [createIntroModal]. *)
Record ModalFields := {
  intro_name : jstring;
  intro_role : jstring;
  intro_institution : jstring;
  intro_interests : jstring;
  intro_details : jstring
}.

(** An interaction: the id of the acting user ([interaction.user.id]),
    the custom id of the control pressed or of the modal submitted, and
    the text inputs of a modal. *)
Record Interaction := {
  user : jstring;
  customId : jstring;
  fields : ModalFields
}.

(** What lies outside the program during one handler run. *)
Record Env := {
  deferOk : bool;
    (** [safeDefer] returned a truthy value *)
  profileChannelId : option jstring;
    (** [config.profileChannelId || process.env.PROFILE_CHANNEL_ID];
        [None] when the expression is falsy, neither being set *)
  channelFetchOk : bool;
    (** [client.channels.fetch] resolves for a channel id *)
  generator : GenOutcome;
  messageFetchOk : bool;
    (** [messages.fetch] resolves for a message that exists *)
  messageDeleteOk : bool;
    (** [message.delete] resolves *)
  embedOk : bool;
    (** the builders accept what they are given *)
  sendResult : option jstring;
    (** the id of the message [send] posts; [None] when it rejects *)
  showModalOk : bool
    (** [showModal] resolves *)
}.

(** *** State and exceptions *)

Inductive Outcome (A : Type) :=
| Returned (a : A)
| Thrown (error : jstring).
Arguments Returned {A} a.
Arguments Thrown {A} error.

Definition Handler (A : Type) : Type := World -> Outcome A * World.

Definition ret {A} (a : A) : Handler A := fun w => (Returned a, w).

Definition throw {A} (error : jstring) : Handler A := fun w => (Thrown error, w).

Definition bind {A B} (m : Handler A) (k : A -> Handler B) : Handler B :=
  fun w =>
    match m w with
    | (Returned a, w') => k a w'
    | (Thrown e, w') => (Thrown e, w')
    end.

#[global] Instance Handler_ret : MRet Handler := @ret.
#[global] Instance Handler_bind : MBind Handler :=
  fun A B k m => bind m k.

(** [try { m } catch (error) { h error }] *)
Definition try_catch {A} (m : Handler A) (h : jstring -> Handler A)
  : Handler A :=
  fun w =>
    match m w with
    | (Returned a, w') => (Returned a, w')
    | (Thrown e, w') => h e w'
    end.

(** [try { x = m } catch { ... return }], the caller matching on the
    result. *)
Definition attempt {A} (m : Handler A) : Handler (option A) :=
  try_catch (a ← m; mret (Some a)) (fun _ => mret None).

(** The world a handler leaves behind. *)
Definition exec {A} (m : Handler A) (w : World) : World := (m w).2.

(** *** The user's side

    The reply methods of the interaction ([editReply], [reply], [update])
    are taken to go through and are recorded in [replies]; [showModal],
    which the handlers guard with a [try], may throw. [safeDefer] and
    [safeError] of [utils/safeReply] are not among the sources: what the
    first returns is given by the environment, the second shows its
    message. *)

Definition add_reply (r : Reply) (w : World) : World :=
  {| store := store w; channel := channel w; replies := replies w ++ [r] |}.

Definition send_reply (r : Reply) : Handler unit :=
  fun w => (Returned tt, add_reply r w).

Definition safeDefer (env : Env) : Handler bool := mret (deferOk env).
Definition editReply (content : jstring) : Handler unit :=
  send_reply (EditReply content).
Definition reply (content : jstring) (buttons : list Button) : Handler unit :=
  send_reply (ReplyEphemeral content buttons).
Definition update (content : jstring) : Handler unit :=
  send_reply (Update content).
Definition safeError (content : jstring) : Handler unit :=
  send_reply (SafeError content).
Definition showModal (env : Env) (prefill : option IntroData)
  : Handler unit :=
  if showModalOk env then send_reply (ShowModal prefill)
  else throw "showModal".

(** *** The profile store *)

Definition set_store (st : gmap jstring Profile.t) (w : World) : World :=
  {| store := st; channel := channel w; replies := replies w |}.

(** Modelled from the spec: [ProfileStore.get(userId)], the record or
    nothing. *)
Definition getUserProfile (userId : jstring) : Handler (option Profile.t) :=
  fun w => (Returned (store w !! userId), w).

(** The record [saveUserProfile(userId, messageId, {introData, summary,
    experienceLevel, skills})] leaves in the store. *)
Definition saved_profile (messageId : jstring) (introData : IntroData)
    (data : Summary) : Profile.t :=
  {| Profile.messageId := Some messageId;
     Profile.introData := introData;
     Profile.summary := summary data;
     Profile.experienceLevel := experienceLevel data;
     Profile.skills := skills data |}.

(** Modelled from the spec: [ProfileStore.save], which writes the record
    of [userId], replacing the one that was there. *)
Definition saveUserProfile (userId messageId : jstring)
    (introData : IntroData) (data : Summary) : Handler unit :=
  fun w => (Returned tt,
            set_store (<[userId := saved_profile messageId introData data]>
                         (store w)) w).

(** Modelled from the spec: [ProfileStore.delete(userId)]. *)
Definition deleteUserProfile (userId : jstring) : Handler unit :=
  fun w => (Returned tt, set_store (delete userId (store w)) w).

(** *** The profile channel *)

Definition set_channel (ch : gmap jstring Artifact) (w : World) : World :=
  {| store := store w; channel := ch; replies := replies w |}.

(** [client.channels.fetch(id)]; with no id there is nothing to fetch. *)
Definition channels_fetch (env : Env) (id : option jstring)
  : Handler jstring :=
  match id with
  | Some channelId =>
    if channelFetchOk env then mret channelId else throw "channels.fetch"
  | None => throw "channels.fetch"
  end.

(** [profileChannel.messages.fetch(id)] *)
Definition messages_fetch (env : Env) (id : jstring) : Handler jstring :=
  fun w =>
    match channel w !! id with
    | Some _ =>
      if messageFetchOk env then (Returned id, w)
      else (Thrown "messages.fetch", w)
    | None => (Thrown "messages.fetch", w)
    end.

(** [message.delete()] *)
Definition message_delete (env : Env) (id : jstring) : Handler unit :=
  fun w =>
    if messageDeleteOk env then
      (Returned tt, set_channel (delete id (channel w)) w)
    else (Thrown "message.delete", w).

(** [profileChannel.send({embeds, components})] *)
Definition channel_send (env : Env) (a : Artifact) : Handler jstring :=
  fun w =>
    match sendResult env with
    | Some id => (Returned id, set_channel (<[id := a]> (channel w)) w)
    | None => (Thrown "send", w)
    end.

(** The embed and button builders validate their input and throw when it
    does not pass. *)
Definition build (env : Env) (a : Artifact) : Handler Artifact :=
  if embedOk env then mret a else throw "builder".

(** ** handlers/introInteractions.js *)

Definition NL : jstring := [LF].

Definition MSG_INTRO_FORM_FAILED : jstring :=
  "❌ Failed to show introduction form".
Definition MSG_NOT_CONFIGURED : jstring :=
  "❌ Profile channel is not configured. Please ask an admin to run `/setup-bot`.".
Definition MSG_CHANNEL_NOT_FOUND : jstring :=
  "❌ Could not find the profile channel. Please contact an admin.".
Definition MSG_PROCESSING : jstring :=
  "⏳ Processing your introduction with AI... This may take a moment.".
Definition MSG_POST_FAILED : jstring :=
  "❌ Failed to post your profile. Please contact an admin.".
Definition MSG_WENT_WRONG : jstring :=
  "⚠️ Something went wrong while processing your introduction. Please try again.".
Definition MSG_UPDATE_OWN : jstring :=
  "❌ You can only update your own introduction.".
Definition MSG_UPDATE_FORM_FAILED : jstring :=
  "❌ Failed to show update form".
Definition MSG_DELETE_OWN : jstring :=
  "❌ You can only delete your own introduction.".
Definition MSG_CONFIRM_DELETE : jstring :=
  "⚠️ Are you sure you want to delete your introduction? This cannot be undone.".
Definition MSG_NOT_FOUND : jstring :=
  "❌ Could not find your introduction.".
Definition MSG_DELETED : jstring :=
  "✅ Your introduction has been deleted.".
Definition MSG_DELETE_FAILED : jstring :=
  "❌ Failed to delete your introduction. Please try again.".
Definition MSG_CANCELLED : jstring :=
  "✅ Deletion cancelled.".

Definition MSG_POSTED (profileChannel levelEmoji experienceLevel : jstring)
  : jstring :=
  "✅ **Your introduction has been posted!**" ++ NL ++ NL
  ++ "📋 Check it out in <#" ++ profileChannel ++ ">" ++ NL
  ++ levelEmoji ++ " Experience Level: **" ++ experienceLevel ++ "**"
  ++ NL ++ NL
  ++ "You can update or delete your intro anytime using the buttons below it.".

(** [value || fallback] for a text input. *)
Definition text_or (value fallback : jstring) : jstring :=
  match value with
  | [] => fallback
  | _ => value
  end.

(** A message id that is neither missing nor empty. *)
Definition truthy_id (id : option jstring) : option jstring :=
  match id with
  | Some (c :: t) => Some (c :: t)
  | _ => None
  end.

Definition profile_embed (userId name role institution interests : jstring)
    (chosen : Summary) : Embed :=
  let levelEmoji := getExperienceEmoji (experienceLevel chosen) in
  {| color := getExperienceColor (experienceLevel chosen);
     title := levelEmoji ++ " Member Introduction";
     mention := userId;
     description := summary chosen;
     embedFields :=
       [ {| fieldName := "🎓 Name"; fieldValue := VStr name; inline := true |};
         {| fieldName := "💼 Role / Study"; fieldValue := VStr role;
            inline := true |};
         {| fieldName := "📊 Experience";
            fieldValue := VStr (levelEmoji ++ " " ++ experienceLevel chosen);
            inline := true |} ]
       ++ (if bool_decide (institution ≠ [])
              && bool_decide (institution ≠ "Not specified")
           then [ {| fieldName := "🏫 Institution";
                     fieldValue := VStr institution; inline := true |} ]
           else [])
       ++ [ {| fieldName := "🤖 Interests"; fieldValue := VStr interests;
               inline := false |};
            {| fieldName := "🧠 Skills"; fieldValue := skills chosen;
               inline := false |} ];
     footer := "Verified by AI Learners India Bot 🤖" |}.

Definition profile_buttons (userId : jstring) : list Button :=
  [ {| buttonId := "update_intro_" ++ userId; label := "Update Intro" |};
    {| buttonId := "delete_intro_" ++ userId; label := "Delete Intro" |} ].

Definition confirm_buttons (userId : jstring) : list Button :=
  [ {| buttonId := "confirm_delete_intro_" ++ userId;
       label := "Yes, Delete" |};
    {| buttonId := "cancel_delete_intro_" ++ userId; label := "Cancel" |} ].

Definition handleIntroButton (env : Env) (interaction : Interaction)
  : Handler unit :=
  try_catch (showModal env None)
            (fun _ => safeError MSG_INTRO_FORM_FAILED).

Definition handleIntroModal (env : Env) (interaction : Interaction)
  : Handler unit :=
  deferred ← safeDefer env;
  if negb deferred then mret tt
  else
    try_catch
      (let name := text_or (intro_name (fields interaction)) "Not provided" in
       let role := text_or (intro_role (fields interaction)) "Not provided" in
       let institution :=
         text_or (intro_institution (fields interaction)) "Not specified" in
       let interests :=
         text_or (intro_interests (fields interaction)) "Not provided" in
       let details :=
         text_or (intro_details (fields interaction)) "Not provided" in
       let introData :=
         {| name := Some name; role := Some role;
            institution := Some institution; interests := Some interests;
            details := Some details |} in
       match profileChannelId env with
       | None => editReply MSG_NOT_CONFIGURED
       | Some id =>
         fetched ← attempt (channels_fetch env (Some id));
         match fetched with
         | None => editReply MSG_CHANNEL_NOT_FOUND
         | Some profileChannel =>
           editReply MSG_PROCESSING;;
           let aiResult := generateIntroSummary (generator env) introData in
           let chosen := chosen_summary aiResult in
           existingProfile ← getUserProfile (user interaction);
           match existingProfile ≫= (fun p => truthy_id (Profile.messageId p)) with
           | Some oldId =>
             try_catch
               (oldMessage ← messages_fetch env oldId;
                message_delete env oldMessage)
               (fun _ => mret tt)
           | None => mret tt
           end;;
           message ← build env
             {| embed := profile_embed (user interaction) name role
                           institution interests chosen;
                components := profile_buttons (user interaction) |};
           sent ← attempt (channel_send env message);
           match sent with
           | None => editReply MSG_POST_FAILED
           | Some profileMessageId =>
             saveUserProfile (user interaction) profileMessageId introData
                             chosen;;
             editReply
               (MSG_POSTED profileChannel
                  (getExperienceEmoji (experienceLevel chosen))
                  (experienceLevel chosen))
           end
         end
       end)
      (fun _ => safeError MSG_WENT_WRONG).

(** [interaction.customId.split('_')[i]]; [None] is [undefined]. *)
Definition tagged_user (i : nat) (interaction : Interaction)
  : option jstring :=
  split UNDERSCORE (customId interaction) !! i.

Definition handleUpdateIntroButton (env : Env) (interaction : Interaction)
  : Handler unit :=
  match tagged_user 2 interaction with
  | Some userId =>
    if bool_decide (user interaction ≠ userId) then reply MSG_UPDATE_OWN []
    else
      try_catch
        (userProfile ← getUserProfile userId;
         showModal env (Profile.introData <$> userProfile))
        (fun _ => safeError MSG_UPDATE_FORM_FAILED)
  | None => reply MSG_UPDATE_OWN []
  end.

(** The two confirmation buttons are built outside any [try]; the
    builders are taken to accept a user id that passed the ownership
    check, so no throw of theirs is modelled here. *)
Definition handleDeleteIntroButton (env : Env) (interaction : Interaction)
  : Handler unit :=
  match tagged_user 2 interaction with
  | Some userId =>
    if bool_decide (user interaction ≠ userId) then reply MSG_DELETE_OWN []
    else reply MSG_CONFIRM_DELETE (confirm_buttons userId)
  | None => reply MSG_DELETE_OWN []
  end.

Definition handleConfirmDeleteIntro (env : Env) (interaction : Interaction)
  : Handler unit :=
  match tagged_user 3 interaction with
  | Some userId =>
    if bool_decide (user interaction ≠ userId) then update MSG_DELETE_OWN
    else
      try_catch
        (userProfile ← getUserProfile userId;
         match userProfile ≫= (fun p => truthy_id (Profile.messageId p)) with
         | None => update MSG_NOT_FOUND
         | Some messageId =>
           try_catch
             (profileChannel ← channels_fetch env (profileChannelId env);
              message ← messages_fetch env messageId;
              message_delete env message)
             (fun _ => mret tt);;
           deleteUserProfile userId;;
           update MSG_DELETED
         end)
        (fun _ => update MSG_DELETE_FAILED)
  | None => update MSG_DELETE_OWN
  end.

Definition handleCancelDeleteIntro (env : Env) (interaction : Interaction)
  : Handler unit :=
  update MSG_CANCELLED.

Definition handleEditProfileModal (env : Env) (interaction : Interaction)
  : Handler unit :=
  handleIntroModal env interaction.

(** ** index.js: the routing of interactions *)

(** [s.startsWith(prefix)] *)
Fixpoint startsWith (prefix s : jstring) : bool :=
  match prefix, s with
  | [], _ => true
  | p :: prefix', c :: s' => (c =? p) && startsWith prefix' s'
  | _ :: _, [] => false
  end.

(** The handler a button press goes to; the project handlers are not
    among the sources and are only named. *)
Inductive ButtonRoute :=
| ToIntroButton | ToUpdateIntroButton | ToDeleteIntroButton
| ToConfirmDeleteIntro | ToCancelDeleteIntro
| ToApplyButton | ToApproveButton | ToRejectButton
| NoButtonRoute.

Definition button_route (customId : jstring) : ButtonRoute :=
  if bool_decide (customId = "intro_button") then ToIntroButton
  else if startsWith "update_intro_" customId then ToUpdateIntroButton
  else if startsWith "delete_intro_" customId then ToDeleteIntroButton
  else if startsWith "confirm_delete_intro_" customId
  then ToConfirmDeleteIntro
  else if startsWith "cancel_delete_intro_" customId
  then ToCancelDeleteIntro
  else if bool_decide (customId = "project_apply") then ToApplyButton
  else if startsWith "approve_project_" customId then ToApproveButton
  else if startsWith "reject_project_" customId then ToRejectButton
  else NoButtonRoute.

Inductive ModalRoute :=
| ToIntroModal | ToEditProfileModal | ToModalSubmit.

Definition modal_route (customId : jstring) : ModalRoute :=
  if bool_decide (customId = "intro_modal") then ToIntroModal
  else if bool_decide (customId = "edit_profile_modal")
  then ToEditProfileModal
  else ToModalSubmit.

(** ** Sample inputs *)

Definition ravi : IntroData :=
  {| name := Some "Ravi"; role := None; institution := None;
     interests := Some "NLP"; details := None |}.

Definition OBJECT_X_PRO_GO : jstring :=
  dq "{'summary':'x','experienceLevel':'Pro','skills':'Go'}".

(** The fenced response, with line feeds after the opening fence and
    before the closing one. *)
Definition fenced_response : jstring :=
  "```json" ++ NL ++ OBJECT_X_PRO_GO ++ NL ++ "```".

(** The same with a backslash and the letter n written out instead of
    each line feed. *)
Definition fenced_response_escaped : jstring :=
  "```json\n" ++ OBJECT_X_PRO_GO ++ "\n```".

Definition expert_response : jstring :=
  dq "{'summary':'x','experienceLevel':'Expert','skills':'Go'}".


(** ** Properties of the summary pipeline *)

(** The response is blank: empty, or white space only. *)
Definition blank (t : jstring) : bool :=
  bool_decide (t = []) || bool_decide (trim t = []).

(** A text that is there: a string with at least one code unit. *)
Definition nonempty_text (v : JsVal) : Prop :=
  exists s, v = VStr s /\ s ≠ [].




(** The generator gave no usable text: no client, a call that threw, a
    response without text, or a blank one. *)
Definition no_response (gen : GenOutcome) : bool :=
  match gen with
  | ResponseText t => blank t
  | _ => true
  end.

Definition sample_fields : ModalFields :=
  {| intro_name := "Ravi"; intro_role := []; intro_institution := [];
     intro_interests := "NLP"; intro_details := [] |}.

(** User [u] acting on the control [id] (or submitting a modal). *)
Definition act (u id : jstring) : Interaction :=
  {| user := u; customId := id; fields := sample_fields |}.

(** Everything outside works. *)
Definition env_ok : Env :=
  {| deferOk := true; profileChannelId := Some "900";
     channelFetchOk := true; generator := CallThrows "fetch failed";
     messageFetchOk := true; messageDeleteOk := true; embedOk := true;
     sendResult := Some "5001"; showModalOk := true |}.

Definition env_send_fails : Env :=
  {| deferOk := true; profileChannelId := Some "900";
     channelFetchOk := true; generator := CallThrows "fetch failed";
     messageFetchOk := true; messageDeleteOk := true; embedOk := true;
     sendResult := None; showModalOk := true |}.

Definition env_unreachable : Env :=
  {| deferOk := true; profileChannelId := Some "900";
     channelFetchOk := false; generator := CallThrows "fetch failed";
     messageFetchOk := true; messageDeleteOk := true; embedOk := true;
     sendResult := Some "5001"; showModalOk := true |}.

Definition env_unconfigured : Env :=
  {| deferOk := true; profileChannelId := None;
     channelFetchOk := true; generator := CallThrows "fetch failed";
     messageFetchOk := true; messageDeleteOk := true; embedOk := true;
     sendResult := Some "5001"; showModalOk := true |}.

Definition env_delete_fails : Env :=
  {| deferOk := true; profileChannelId := Some "900";
     channelFetchOk := true; generator := CallThrows "fetch failed";
     messageFetchOk := true; messageDeleteOk := false; embedOk := true;
     sendResult := Some "5001"; showModalOk := true |}.

Definition empty_world : World :=
  {| store := ∅; channel := ∅; replies := [] |}.

(** User 42 has a profile: a record and its artifact 5001. *)
Definition published_world : World :=
  exec (handleIntroModal env_ok (act "42" "intro_modal")) empty_world.

(** User 42 requests the deletion and confirms; [message.delete]
    rejects. *)
Definition world_after_failed_retraction : World :=
  exec (handleConfirmDeleteIntro env_delete_fails
          (act "42" "confirm_delete_intro_42"))
    (exec (handleDeleteIntroButton env_delete_fails
             (act "42" "delete_intro_42")) published_world).

(** User 42 confirms the deletion on an instance without channel id. *)
Definition world_after_unconfigured_confirm : World :=
  exec (handleConfirmDeleteIntro env_unconfigured
          (act "42" "confirm_delete_intro_42")) published_world.

(** The introData [handleIntroModal] builds from the modal. *)
Definition submitted (i : Interaction) : IntroData :=
  {| name := Some (text_or (intro_name (fields i)) "Not provided");
     role := Some (text_or (intro_role (fields i)) "Not provided");
     institution :=
       Some (text_or (intro_institution (fields i)) "Not specified");
     interests := Some (text_or (intro_interests (fields i)) "Not provided");
     details := Some (text_or (intro_details (fields i)) "Not provided") |}.

(** The artifact's retraction goes through: the channel id is set, and
    channel fetch, message fetch and message delete all resolve. *)
Definition retract_ok (env : Env) : bool :=
  bool_decide (is_Some (profileChannelId env)) && channelFetchOk env
  && messageFetchOk env && messageDeleteOk env.

Ltac unfold_handlers :=
  unfold handleEditProfileModal, handleIntroModal, handleUpdateIntroButton,
    handleDeleteIntroButton, handleConfirmDeleteIntro,
    handleCancelDeleteIntro, handleIntroButton, exec, attempt, try_catch,
    build, channel_send, message_delete, messages_fetch, channels_fetch,
    deleteUserProfile, saveUserProfile, getUserProfile, safeDefer, editReply,
    reply, update, safeError, showModal, send_reply, throw;
  unfold mbind, mret, Handler_bind, Handler_ret, bind, ret.

(** ** utils/aiIntroSummary.js: the client *)

(** The module keeps one client, [genAI], [null] at first. [initializeAI]
    builds it when there is none and [process.env.GEMINI_API_KEY] is
    truthy; the constructor may throw, which leaves [null]. A client is
    identified by the key it was built with. The function returns
    [genAI], which is also the new state. *)
Definition initializeAI (apiKey : option jstring) (constructorOk : bool)
    (genAI : option jstring) : option jstring :=
  match genAI with
  | Some client => Some client
  | None =>
    match truthy_id apiKey with
    | Some key => if constructorOk then Some key else None
    | None => None
    end
  end.

(** Successive calls, each with the key and the constructor's fate at
    that time. *)
Definition initializeAI_calls (calls : list (option jstring * bool))
    (genAI : option jstring) : option jstring :=
  fold_left (fun g c => initializeAI c.1 c.2 g) calls genAI.

(** ** index.js: start-up, commands, messages *)

Record ProcessEnv := {
  DISCORD_TOKEN : option jstring;
  TOKEN : option jstring;
  INTRO_CHANNEL_ID : option jstring;
  PROFILE_CHANNEL_ID : option jstring;
  GEMINI_API_KEY : option jstring
}.

(** [a || b] for two settings, [None] when the result is falsy. *)
Definition setting_or (a b : option jstring) : option jstring :=
  match truthy_id a with
  | Some x => Some x
  | None => truthy_id b
  end.

Inductive Startup :=
| ExitNoToken
| ExitNoChannels
| Login (token : jstring).

(** The checks at the end of the module: a token, then the two channel
    ids, or [process.exit(1)]. *)
Definition startup (penv : ProcessEnv) : Startup :=
  match setting_or (DISCORD_TOKEN penv) (TOKEN penv) with
  | None => ExitNoToken
  | Some token =>
    match truthy_id (INTRO_CHANNEL_ID penv),
          truthy_id (PROFILE_CHANNEL_ID penv) with
    | Some _, Some _ => Login token
    | _, _ => ExitNoChannels
    end
  end.

(** [config.profileChannelId || process.env.PROFILE_CHANNEL_ID], as the
    handlers compute it. *)
Definition configured_profile_channel (configProfileChannelId : option jstring)
    (penv : ProcessEnv) : option jstring :=
  setting_or configProfileChannelId (PROFILE_CHANNEL_ID penv).

(** [s.endsWith(suffix)] *)
Definition endsWith (suffix s : jstring) : bool :=
  startsWith (reverse suffix) (reverse s).

(** A module of the commands directory: whether it has [data] and
    [execute], and [data.name]. *)
Record CommandModule := {
  hasData : bool;
  hasExecute : bool;
  dataName : jstring
}.

(** The loop over the files of the commands directory that fills
    [client.commands]. *)
Definition load_command (commands : gmap jstring CommandModule)
    (file : jstring * CommandModule) : gmap jstring CommandModule :=
  if endsWith ".js" file.1 && hasData file.2 && hasExecute file.2
  then <[dataName file.2 := file.2]> commands
  else commands.

Definition load_commands (files : list (jstring * CommandModule))
  : gmap jstring CommandModule :=
  fold_left load_command files ∅.

(** A project, as far as the message listener reads it: [project.id] and
    [project.channelIds.chat]. *)
Record Project := {
  projectId : jstring;
  chatChannelId : jstring
}.

(** The loop of the [messageCreate] listener over the projects: the ids
    [updateLastActivity] is called with. *)
Fixpoint touch_project (channelId : jstring) (projects : list Project)
  : list jstring :=
  match projects with
  | [] => []
  | project :: rest =>
    if bool_decide (chatChannelId project = channelId)
    then [projectId project]
    else touch_project channelId rest
  end.

Definition onMessageCreate (authorIsBot : bool) (channelId : jstring)
    (projects : list Project) : list jstring :=
  if authorIsBot then [] else touch_project channelId projects.

(** ** Notions for the further properties *)

Definition FENCE : jstring := "```".

(** [needle] occurs in [hay]. *)
Definition occurs_in (needle hay : jstring) : Prop :=
  exists a b, hay = a ++ needle ++ b.

(** A fence has just been removed: the line feed that may follow goes
    with it. *)
Definition skip_lf (r : jstring) : jstring :=
  match r with
  | nl :: r' => if nl =? LF then r' else r
  | [] => []
  end.

(** [x] starts with one, with two backticks. *)
Definition starts_tick (x : jstring) : bool :=
  match x with
  | c :: _ => c =? BACKTICK
  | [] => false
  end.

Definition starts_2ticks (x : jstring) : bool :=
  match x with
  | c1 :: c2 :: _ => (c1 =? BACKTICK) && (c2 =? BACKTICK)
  | _ => false
  end.

(** The parser holds no [undefined] as its result. *)
Definition pstate_defined (st : pstate) : Prop :=
  match st with
  | PDone v => v ≠ VUndefined
  | _ => True
  end.

(** The final answers of [handleIntroModal]. *)
Definition is_final_answer (r : Reply) : Prop :=
  r = EditReply MSG_NOT_CONFIGURED \/ r = EditReply MSG_CHANNEL_NOT_FOUND
  \/ r = EditReply MSG_POST_FAILED \/ r = SafeError MSG_WENT_WRONG
  \/ exists profileChannel levelEmoji level,
       r = EditReply (MSG_POSTED profileChannel levelEmoji level).

(** Everything the channel side of an update needs works, and the send
    returns [id]. *)
Definition publishes (env : Env) (id : jstring) : Prop :=
  deferOk env = true /\ is_Some (profileChannelId env)
  /\ channelFetchOk env = true /\ embedOk env = true
  /\ sendResult env = Some id.

Definition env_republish : Env :=
  {| deferOk := true; profileChannelId := Some "900";
     channelFetchOk := true; generator := ResponseText "not json at all";
     messageFetchOk := true; messageDeleteOk := true; embedOk := true;
     sendResult := Some "5002"; showModalOk := true |}.

Definition env_republish_fails : Env :=
  {| deferOk := true; profileChannelId := Some "900";
     channelFetchOk := true; generator := ResponseText "not json at all";
     messageFetchOk := true; messageDeleteOk := true; embedOk := true;
     sendResult := None; showModalOk := true |}.

(** User 42, whose artifact is 5001, submits the edit-profile modal and
    the send fails. *)
Definition world_after_failed_update : World :=
  exec (handleEditProfileModal env_republish_fails
          (act "42" "edit_profile_modal")) published_world.

Definition sample_process_env : ProcessEnv :=
  {| DISCORD_TOKEN := None; TOKEN := Some "t0k3n";
     INTRO_CHANNEL_ID := Some "800"; PROFILE_CHANNEL_ID := Some "900";
     GEMINI_API_KEY := None |}.

(** ** Sanity checks of the JSON reader *)

Example JSON_parse_object :
  JSON_parse OBJECT_X_PRO_GO
  = Some (VObj [("summary", VStr "x"); ("experienceLevel", VStr "Pro");
                ("skills", VStr "Go")]).
Proof. reflexivity. Qed.

Example JSON_parse_nested :
  JSON_parse (dq " [1, -2.50e3, true, null, {'a':[], 'a':{}}, 'Aé\n'] ")
  = Some (VArr [VNum 1 0; VNum (-250) 1; VBool true; VNull;
                VObj [("a", VArr []); ("a", VObj [])];
                VStr [65; 233; 10]]).
Proof. reflexivity. Qed.

Example JSON_parse_rejects :
  Forall (fun t => JSON_parse t = None)
    ["not json at all"; []; "01"; "1."; "-"; "[1,]"; dq "{'a':1,}"; "nul";
     "1 2"; dq "'abc"; dq "{'a' 'b'}"; "[[]"; "{}}"; dq "'\x'"].
Proof. repeat constructor. Qed.

Example duplicate_key_last_wins :
  JSON_parse (dq "{'a':1, 'a':2}") ≫= (fun v => get_prop v "a")
  = Some (VNum 2 0).
Proof. reflexivity. Qed.

Example underflow_is_falsy :
  truthy <$> JSON_parse "1e-400" = Some false
  /\ truthy <$> JSON_parse "1e-300" = Some true.
Proof. split; vm_compute; reflexivity. Qed.

Lemma truthy_text s : truthy (VStr s) = true <-> s ≠ [].
Proof. destruct s; simpl; split; congruence. Qed.

Lemma nonempty_text_truthy v : nonempty_text v -> truthy v = true.
Proof. intros (s & -> & Hs). by apply truthy_text. Qed.

Lemma js_or_truthy a b : truthy b = true -> truthy (js_or a b) = true.
Proof. intros Hb. unfold js_or. by destruct (truthy a) eqn:Ha. Qed.


Lemma fallback_summary_text d : nonempty_text (summary (createFallbackSummary d)).
Proof.
  eexists. split; [reflexivity |].
  intros H. apply app_eq_nil in H as [_ H]. discriminate.
Qed.


(** *** The two brace trims keep the outermost brace pair *)

Lemma from_first_none c x : c ∉ x -> from_first c x = None.
Proof.
  induction x as [| d x IH]; [done |]. intros Hx. simpl.
  apply not_elem_of_cons in Hx as [Hd Hx].
  destruct (N.eqb_spec d c) as [-> | _]; [done | by apply IH].
Qed.

Lemma from_first_split c pre post :
  c ∉ pre -> from_first c (pre ++ c :: post) = Some (c :: post).
Proof.
  induction pre as [| d pre IH]; intros Hpre; simpl.
  - by rewrite N.eqb_refl.
  - apply not_elem_of_cons in Hpre as [Hd Hpre].
    destruct (N.eqb_spec d c) as [-> | _]; [done | by apply IH].
Qed.

Lemma drop_before_first_brace_split pre post :
  LBRACE ∉ pre ->
  drop_before_first_brace (pre ++ LBRACE :: post) = LBRACE :: post.
Proof.
  intros Hpre. unfold drop_before_first_brace.
  by rewrite from_first_split.
Qed.

Lemma drop_before_first_brace_none x :
  LBRACE ∉ x -> drop_before_first_brace x = x.
Proof.
  intros Hx. unfold drop_before_first_brace. by rewrite from_first_none.
Qed.

Lemma drop_after_last_brace_split pre post :
  RBRACE ∉ post ->
  drop_after_last_brace (pre ++ RBRACE :: post) = pre ++ [RBRACE].
Proof.
  intros Hpost. unfold drop_after_last_brace.
  rewrite reverse_app, reverse_cons, <- app_assoc. simpl.
  rewrite from_first_split by (by rewrite elem_of_reverse). simpl.
  by rewrite reverse_cons, reverse_involutive.
Qed.

Lemma drop_after_last_brace_none x :
  RBRACE ∉ x -> drop_after_last_brace x = x.
Proof.
  intros Hx. unfold drop_after_last_brace.
  rewrite from_first_none; [done | by rewrite elem_of_reverse].
Qed.

Lemma coerce_level_valid v : coerce_level v ∈ validLevels.
Proof.
  destruct v; simpl; try (apply list_elem_of_here).
  case_bool_decide; [done | apply list_elem_of_here].
Qed.

(** What [generateIntroSummary] does with a response that is not blank. *)
Lemma generate_response t d :
  blank t = false ->
  generateIntroSummary (ResponseText t) d
  = match summary_of_parsed
            (default (text_as_summary t) (JSON_parse (clean_response t))) d with
    | Some result => AiSuccess result
    | None => AiFailure ERR_TYPE (createFallbackSummary d)
    end.
Proof.
  intros Hb. unfold generateIntroSummary. fold (blank t). rewrite Hb.
  by destruct (JSON_parse (clean_response t)).
Qed.

Lemma generate_blank t d :
  blank t = true ->
  generateIntroSummary (ResponseText t) d
  = AiFailure ERR_EMPTY (createFallbackSummary d).
Proof. intros Hb. unfold generateIntroSummary. fold (blank t). by rewrite Hb. Qed.

Lemma summary_of_parsed_usable parsed d r :
  summary_of_parsed parsed d = Some r ->
  truthy (summary r) = true /\ experienceLevel r ∈ validLevels
  /\ truthy (skills r) = true.
Proof.
  unfold summary_of_parsed. intros H.
  destruct (get_prop parsed "experienceLevel") as [lv |]; [| done].
  destruct (get_prop parsed "summary") as [ps |]; [| done].
  destruct (get_prop parsed "skills") as [pk |]; [| done].
  injection H as <-. simpl. split_and!.
  - apply js_or_truthy, nonempty_text_truthy, fallback_summary_text.
  - apply coerce_level_valid.
  - by apply js_or_truthy.
Qed.



Lemma blank_false_take t : blank t = false -> take 400 t ≠ [].
Proof.
  unfold blank. intros H. apply orb_false_elim in H as [H _].
  apply bool_decide_eq_false in H. by destruct t.
Qed.




(** C4 (amended). With a name and interests that are there, the fallback
    summary is the template "{name} is interested in {interests} and wants
    to learn and grow in the AI community.", the experienceLevel is
    Beginner and the skills are "Not specified". *)
Theorem fallback_template (d : IntroData) (n t : jstring) :
  name d = Some n -> n ≠ [] ->
  interests d = Some t -> t ≠ [] ->
  createFallbackSummary d
  = {| summary :=
         VStr (n ++ " is interested in " ++ t
               ++ " and wants to learn and grow in the AI community.");
       experienceLevel := "Beginner";
       skills := VStr "Not specified" |}.
Proof.
  intros Hn Hn0 Ht Ht0. unfold createFallbackSummary. rewrite Hn, Ht.
  by destruct n, t.
Qed.

(** C4, witness: the fields of Ravi. *)
Lemma fallback_template_witness :
  createFallbackSummary ravi
  = {| summary :=
         VStr "Ravi is interested in NLP and wants to learn and grow in the AI community.";
       experienceLevel := "Beginner";
       skills := VStr "Not specified" |}.
Proof.
  apply (fallback_template ravi "Ravi" "NLP"); [reflexivity | discriminate
                                               | reflexivity | discriminate].
Defined.

(** C4, counterexample: for Ravi the summary is not the sentence that ends
    in "in the community.", and the skills are not "not specified". *)
Lemma fallback_not_as_claimed :
  summary (createFallbackSummary ravi)
  ≠ VStr "Ravi is interested in NLP and wants to learn and grow in the community."
  /\ skills (createFallbackSummary ravi) ≠ VStr "not specified".
Proof. split; intros H; vm_compute in H; discriminate. Qed.

(** Missing or empty fields read as "This member" and "AI and
    technology". *)
Lemma fallback_template_defaults (d : IntroData) :
  name d = None \/ name d = Some [] ->
  interests d = None \/ interests d = Some [] ->
  summary (createFallbackSummary d)
  = VStr "This member is interested in AI and technology and wants to learn and grow in the AI community.".
Proof.
  intros [Hn | Hn] [Ht | Ht]; unfold createFallbackSummary;
    rewrite Hn, Ht; reflexivity.
Qed.

(** C5 (amended). A response that is not blank and that the cleaning does
    not turn into JSON is kept as the summary, cut to its first 400 code
    units, with experienceLevel Beginner and skills "Not specified"; the
    deterministic fallback template is what a missing client, a failed
    call, a response without text and a blank response give. *)
Theorem unrecoverable_response (d : IntroData) :
  (forall t, blank t = false -> JSON_parse (clean_response t) = None ->
     chosen_summary (generateIntroSummary (ResponseText t) d)
     = {| summary := VStr (take 400 t);
          experienceLevel := "Beginner";
          skills := VStr "Not specified" |})
  /\ (forall gen, no_response gen = true ->
        chosen_summary (generateIntroSummary gen d)
        = createFallbackSummary d).
Proof.
  split.
  - intros t Hb Hp. rewrite generate_response, Hp by done.
    pose proof (blank_false_take t Hb) as Hne.
    cbn. unfold js_or. simpl. by destruct (take 400 t).
  - intros [| msg | | t] Hg; try reflexivity.
    simpl in Hg. by rewrite generate_blank.
Qed.

(** C5, witness: "not json at all" on one side, a failed call on the
    other. *)
Lemma unrecoverable_response_witness :
  chosen_summary (generateIntroSummary (ResponseText "not json at all") ravi)
  = {| summary := VStr "not json at all";
       experienceLevel := "Beginner";
       skills := VStr "Not specified" |}
  /\ chosen_summary (generateIntroSummary (CallThrows "fetch failed") ravi)
     = createFallbackSummary ravi.
Proof.
  split.
  - apply (proj1 (unrecoverable_response ravi) "not json at all");
      reflexivity.
  - apply (proj2 (unrecoverable_response ravi) (CallThrows "fetch failed")).
    reflexivity.
Defined.

(** C5, counterexample: "not json at all" is not recoverable as JSON and
    the pipeline does not return the fallback template for it. *)
Lemma unrecoverable_not_fallback :
  blank "not json at all" = false
  /\ JSON_parse (clean_response "not json at all") = None
  /\ chosen_summary (generateIntroSummary (ResponseText "not json at all") ravi)
     ≠ createFallbackSummary ravi.
Proof.
  split_and!; [reflexivity | reflexivity |].
  intros H. vm_compute in H. discriminate.
Qed.

(** C8. When the cleaned response parses and its [experienceLevel] is
    none of Beginner, Builder and Pro, the experienceLevel returned is
    Beginner. *)
Theorem invalid_level_coerced (t : jstring) (d : IntroData) (parsed : JsVal) :
  JSON_parse (clean_response t) = Some parsed ->
  (forall l, l ∈ validLevels ->
     get_prop parsed "experienceLevel" ≠ Some (VStr l)) ->
  experienceLevel (chosen_summary (generateIntroSummary (ResponseText t) d))
  = "Beginner".
Proof.
  intros Hp Hl. destruct (blank t) eqn:Hb.
  - by rewrite generate_blank.
  - rewrite generate_response, Hp by done. simpl.
    unfold summary_of_parsed.
    destruct (get_prop parsed "experienceLevel") as [lv |]; [| done].
    destruct (get_prop parsed "summary") as [ps |]; [| done].
    destruct (get_prop parsed "skills") as [pk |]; [| done].
    simpl. destruct lv as [| | b | m e | s | l | props]; try done.
    simpl. case_bool_decide as Hs; [| done].
    by destruct (Hl s Hs).
Qed.

(** C8, witness: the level "Expert". *)
Lemma invalid_level_coerced_witness :
  experienceLevel
    (chosen_summary (generateIntroSummary (ResponseText expert_response) ravi))
  = "Beginner".
Proof.
  apply (invalid_level_coerced expert_response ravi
           (VObj [("summary", VStr "x"); ("experienceLevel", VStr "Expert");
                  ("skills", VStr "Go")])).
  - reflexivity.
  - intros l Hl H. vm_compute in H. injection H as <-.
    revert Hl. apply (bool_decide_eq_false_1 ("Expert" ∈ validLevels)).
    reflexivity.
Defined.

(** C9. The JSON object wrapped in code fences is recovered: the cleaning
    leaves the text of the object, it parses to the three fields, and they
    are what [generateIntroSummary] returns; the same holds when the line
    feeds are written out as a backslash and the letter n. *)
Theorem fenced_response_recovered (d : IntroData) :
  clean_response fenced_response = OBJECT_X_PRO_GO
  /\ JSON_parse (clean_response fenced_response)
     = Some (VObj [("summary", VStr "x"); ("experienceLevel", VStr "Pro");
                   ("skills", VStr "Go")])
  /\ generateIntroSummary (ResponseText fenced_response) d
     = AiSuccess {| summary := VStr "x"; experienceLevel := "Pro";
                    skills := VStr "Go" |}
  /\ clean_response fenced_response_escaped = OBJECT_X_PRO_GO
  /\ generateIntroSummary (ResponseText fenced_response_escaped) d
     = AiSuccess {| summary := VStr "x"; experienceLevel := "Pro";
                    skills := VStr "Go" |}.
Proof. split_and!; vm_compute; reflexivity. Qed.

(** *** The handlers *)

Lemma intro_modal_unconfigured env i w :
  deferOk env = true -> profileChannelId env = None ->
  handleIntroModal env i w
  = (Returned tt, add_reply (EditReply MSG_NOT_CONFIGURED) w).
Proof.
  intros Hd Hc. unfold_handlers. rewrite Hd, Hc. reflexivity.
Qed.

Lemma intro_modal_not_deferred env i w :
  deferOk env = false -> handleIntroModal env i w = (Returned tt, w).
Proof. intros Hd. unfold_handlers. rewrite Hd. reflexivity. Qed.

(** What a modal submission leaves behind: the store as it was, or the
    record of the user overwritten with the id [send] returned and the
    summary generated from the submitted fields, the new artifact being on
    the channel. *)
Lemma intro_modal_effect env i w :
  let w' := exec (handleIntroModal env i) w in
  store w' = store w
  \/ exists id,
       sendResult env = Some id
       /\ store w'
          = <[user i := saved_profile id (submitted i)
                (chosen_summary
                   (generateIntroSummary (generator env) (submitted i)))]>
              (store w)
       /\ exists a, channel w' !! id = Some a
                    /\ components a = profile_buttons (user i).
Proof.
  unfold_handlers. cbv zeta.
  repeat (case_match; simplify_eq/=); eauto.
  all: right; eexists; split_and!; eauto; eexists; split;
    [apply lookup_insert_eq | reflexivity].
Qed.

(** C1. A user without a record submits the intro form, on a configured
    instance that could defer the interaction. If the channel cannot be
    resolved, or the send fails, no record is written, the channel is as
    it was and the user is told of the failure; if the send succeeds, the
    record stored for the user carries the id of the message sent. *)
Theorem create_publishes_then_saves (env : Env) (i : Interaction) (w : World)
    (channelId : jstring) :
  store w !! user i = None ->
  deferOk env = true ->
  profileChannelId env = Some channelId ->
  let w' := exec (handleIntroModal env i) w in
  (channelFetchOk env = false ->
     store w' = store w /\ channel w' = channel w
     /\ replies w' = replies w ++ [EditReply MSG_CHANNEL_NOT_FOUND])
  /\ (channelFetchOk env = true -> embedOk env = true ->
      sendResult env = None ->
      store w' = store w /\ channel w' = channel w
      /\ replies w'
         = replies w ++ [EditReply MSG_PROCESSING; EditReply MSG_POST_FAILED])
  /\ (forall id, channelFetchOk env = true -> embedOk env = true ->
      sendResult env = Some id ->
      exists p, store w' !! user i = Some p
                /\ Profile.messageId p = Some id).
Proof.
  intros Hnone Hd Hc. unfold_handlers. cbv zeta. rewrite Hd, Hc. simpl.
  split_and!.
  - intros ->. simpl. done.
  - intros -> -> ->. simpl. rewrite Hnone. simpl.
    split_and!; [done | done |]. by rewrite <- app_assoc.
  - intros id -> -> ->. simpl. rewrite Hnone. simpl.
    eexists. split; [apply lookup_insert_eq | reflexivity].
Qed.

(** C1, witness: user 42 on an empty store, with a channel that cannot
    be resolved, with a send that fails, and with a send that returns
    5001. *)
Lemma create_publishes_then_saves_witness :
  (let w' := exec (handleIntroModal env_unreachable (act "42" "intro_modal"))
                  empty_world in
   store w' = ∅ /\ channel w' = ∅
   /\ replies w' = [EditReply MSG_CHANNEL_NOT_FOUND])
  /\ (let w' := exec (handleIntroModal env_send_fails
                        (act "42" "intro_modal")) empty_world in
      store w' = ∅ /\ channel w' = ∅
      /\ replies w' = [EditReply MSG_PROCESSING; EditReply MSG_POST_FAILED])
  /\ (exists p,
        store (exec (handleIntroModal env_ok (act "42" "intro_modal"))
                    empty_world) !! ("42" : jstring) = Some p
        /\ Profile.messageId p = Some "5001").
Proof.
  split_and!.
  - apply (create_publishes_then_saves env_unreachable
             (act "42" "intro_modal") empty_world "900"); reflexivity.
  - apply (create_publishes_then_saves env_send_fails (act "42" "intro_modal")
             empty_world "900"); reflexivity.
  - apply (create_publishes_then_saves env_ok (act "42" "intro_modal")
             empty_world "900"); reflexivity.
Defined.

(** C2. An update, delete-request or delete-confirm interaction whose
    acting user is not the user id carried by the control is answered with
    the ownership message and changes neither the store nor the channel. *)
Theorem foreign_control_rejected (env : Env) (i : Interaction) (w : World) :
  (tagged_user 2 i ≠ Some (user i) ->
     handleUpdateIntroButton env i w
     = (Returned tt, add_reply (ReplyEphemeral MSG_UPDATE_OWN []) w)
     /\ handleDeleteIntroButton env i w
        = (Returned tt, add_reply (ReplyEphemeral MSG_DELETE_OWN []) w))
  /\ (tagged_user 3 i ≠ Some (user i) ->
      handleConfirmDeleteIntro env i w
      = (Returned tt, add_reply (Update MSG_DELETE_OWN) w))
  /\ (forall r, store (add_reply r w) = store w
                /\ channel (add_reply r w) = channel w).
Proof.
  split_and!.
  - intros Hne. unfold_handlers.
    destruct (tagged_user 2 i) as [u |]; [| done].
    rewrite bool_decide_eq_true_2 by congruence. done.
  - intros Hne. unfold_handlers.
    destruct (tagged_user 3 i) as [u |]; [| done].
    rewrite bool_decide_eq_true_2 by congruence. done.
  - done.
Qed.

(** C2, witness: user 7 presses the controls of user 42, who has a
    profile. *)
Lemma foreign_control_rejected_witness :
  handleUpdateIntroButton env_ok (act "7" "update_intro_42") published_world
  = (Returned tt,
     add_reply (ReplyEphemeral MSG_UPDATE_OWN []) published_world)
  /\ handleDeleteIntroButton env_ok (act "7" "delete_intro_42")
       published_world
     = (Returned tt,
        add_reply (ReplyEphemeral MSG_DELETE_OWN []) published_world)
  /\ handleConfirmDeleteIntro env_ok (act "7" "confirm_delete_intro_42")
       published_world
     = (Returned tt, add_reply (Update MSG_DELETE_OWN) published_world).
Proof.
  split_and!.
  - apply (foreign_control_rejected env_ok (act "7" "update_intro_42")
             published_world).
    vm_compute. discriminate.
  - apply (foreign_control_rejected env_ok (act "7" "delete_intro_42")
             published_world).
    vm_compute. discriminate.
  - apply (foreign_control_rejected env_ok (act "7" "confirm_delete_intro_42")
             published_world).
    vm_compute. discriminate.
Defined.

(** The controls the program attaches carry their owner: for a user id
    without underscore, the id read back from the control is the owner's. *)
Lemma split_go_no_sep sep cur s :
  sep ∉ s -> split_go sep cur s = [reverse cur ++ s].
Proof.
  revert cur. induction s as [| c s IH]; intros cur Hs; simpl.
  - by rewrite app_nil_r.
  - apply not_elem_of_cons in Hs as [Hc Hs].
    destruct (N.eqb_spec c sep) as [-> | _]; [done |].
    rewrite IH by done. by rewrite reverse_cons, <- app_assoc.
Qed.

(** The buttons of a profile go to the update and delete handlers, those
    of a confirmation to the confirm and cancel handlers. *)
Lemma button_route_of_buttons (owner : jstring) :
  button_route <$> (buttonId <$> profile_buttons owner)
  = [ToUpdateIntroButton; ToDeleteIntroButton]
  /\ button_route <$> (buttonId <$> confirm_buttons owner)
     = [ToConfirmDeleteIntro; ToCancelDeleteIntro].
Proof. split; reflexivity. Qed.

Lemma tagged_user_of_buttons (owner actor : jstring) (f : ModalFields) :
  UNDERSCORE ∉ owner ->
  Forall (fun b => tagged_user 2 {| user := actor; customId := buttonId b;
                                    fields := f |} = Some owner)
         (profile_buttons owner)
  /\ Forall (fun b => tagged_user 3 {| user := actor; customId := buttonId b;
                                       fields := f |} = Some owner)
            (confirm_buttons owner).
Proof.
  intros Ho. unfold tagged_user, split.
  split; repeat constructor; simpl; by rewrite split_go_no_sep.
Qed.

Lemma cancel_after_request env1 env2 req cancel w :
  let w' := exec (handleCancelDeleteIntro env2 cancel)
                 (exec (handleDeleteIntroButton env1 req) w) in
  store w' = store w /\ channel w' = channel w.
Proof.
  unfold_handlers. cbv zeta. by repeat (case_match; simplify_eq/=).
Qed.

(** A confirmed delete by the owner of a record that has an artifact. *)
Lemma confirm_owner env conf w p id :
  tagged_user 3 conf = Some (user conf) ->
  store w !! user conf = Some p ->
  truthy_id (Profile.messageId p) = Some id ->
  let w' := exec (handleConfirmDeleteIntro env conf) w in
  store w' = delete (user conf) (store w)
  /\ (retract_ok env = true -> channel w' = delete id (channel w))
  /\ (retract_ok env = false -> channel w' = channel w)
  /\ replies w' = replies w ++ [Update MSG_DELETED].
Proof.
  intros Ht Hp Hid. unfold_handlers. cbv zeta. rewrite Ht.
  rewrite bool_decide_eq_false_2 by (intros H; by apply H).
  rewrite Hp. simpl. rewrite Hid. unfold retract_ok.
  destruct (profileChannelId env) as [c |], (channelFetchOk env),
    (channel w !! id) as [a |] eqn:Ha, (messageFetchOk env),
    (messageDeleteOk env); simpl; split_and!; try done.
  all: intros _; by rewrite delete_id.
Qed.

(** A confirm for a user without a record. *)
Lemma confirm_without_record env conf w :
  tagged_user 3 conf = Some (user conf) ->
  store w !! user conf = None ->
  handleConfirmDeleteIntro env conf w
  = (Returned tt, add_reply (Update MSG_NOT_FOUND) w).
Proof.
  intros Ht Hp. unfold_handlers. rewrite Ht.
  rewrite bool_decide_eq_false_2 by (intros H; by apply H).
  by rewrite Hp.
Qed.

(** C6 (amended). A delete request followed by cancel leaves the record
    and the artifact as they were. A delete request followed by the
    owner's confirm, for a record that has an artifact id, always removes
    the record; it removes the artifact when the retraction goes through,
    and leaves the channel as it was when it does not. Confirming once
    more then returns normally and changes neither store nor channel. *)
Theorem delete_confirmation_flow (env1 env2 env3 : Env)
    (req cancel conf : Interaction) (w : World) (p : Profile.t)
    (id : jstring) :
  (let w' := exec (handleCancelDeleteIntro env2 cancel)
                  (exec (handleDeleteIntroButton env1 req) w) in
   store w' = store w /\ channel w' = channel w)
  /\ (tagged_user 3 conf = Some (user conf) ->
      store w !! user conf = Some p ->
      truthy_id (Profile.messageId p) = Some id ->
      let w1 := exec (handleDeleteIntroButton env1 req) w in
      let w2 := exec (handleConfirmDeleteIntro env2 conf) w1 in
      store w2 = delete (user conf) (store w)
      /\ (retract_ok env2 = true -> channel w2 = delete id (channel w))
      /\ (retract_ok env2 = false -> channel w2 = channel w)
      /\ handleConfirmDeleteIntro env3 conf w2
         = (Returned tt, add_reply (Update MSG_NOT_FOUND) w2)).
Proof.
  split; [apply cancel_after_request |].
  intros Ht Hp Hid w1 w2.
  assert (Hw1 : store w1 = store w /\ channel w1 = channel w).
  { subst w1. unfold_handlers. by repeat (case_match; simplify_eq/=). }
  destruct Hw1 as [Hs1 Hc1].
  destruct (confirm_owner env2 conf w1 p id) as (Hs & Hok & Hko & _);
    [done | by rewrite Hs1 | done |].
  fold w2 in Hs, Hok, Hko. rewrite Hs1 in Hs. rewrite Hc1 in Hok, Hko.
  split_and!; try done.
  apply confirm_without_record; [done |].
  rewrite Hs. apply lookup_delete_eq.
Qed.

(** C6, witness: user 42, who has a profile, requests, confirms and
    confirms again, everything outside working. *)
Lemma delete_confirmation_flow_witness :
  let w1 := exec (handleDeleteIntroButton env_ok (act "42" "delete_intro_42"))
                 published_world in
  let w2 := exec (handleConfirmDeleteIntro env_ok
                    (act "42" "confirm_delete_intro_42")) w1 in
  store w2 = delete ("42" : jstring) (store published_world)
  /\ channel w2 = delete ("5001" : jstring) (channel published_world)
  /\ handleConfirmDeleteIntro env_ok (act "42" "confirm_delete_intro_42") w2
     = (Returned tt, add_reply (Update MSG_NOT_FOUND) w2).
Proof.
  destruct (proj2 (delete_confirmation_flow env_ok env_ok env_ok
           (act "42" "delete_intro_42") (act "42" "cancel_delete_intro_42")
           (act "42" "confirm_delete_intro_42") published_world
           (saved_profile "5001" (submitted (act "42" "intro_modal"))
              (createFallbackSummary (submitted (act "42" "intro_modal"))))
           "5001") eq_refl eq_refl eq_refl) as (Hs & Hok & _ & Hagain).
  exact (conj Hs (conj (Hok eq_refl) Hagain)).
Defined.

(** C6, counterexample: user 42 has a record and the artifact 5001;
    [message.delete] rejects. After request and confirm the record is gone
    and the artifact is still on the channel. *)
Lemma confirm_leaves_artifact :
  is_Some (store published_world !! ("42" : jstring))
  /\ is_Some (channel published_world !! ("5001" : jstring))
  /\ store world_after_failed_retraction !! ("42" : jstring) = None
  /\ channel world_after_failed_retraction !! ("5001" : jstring)
     = channel published_world !! ("5001" : jstring).
Proof.
  split_and!.
  - vm_compute. eauto.
  - vm_compute. eauto.
  - vm_compute. reflexivity.
  - vm_compute. reflexivity.
Qed.

(** C7 (amended). With no profile channel id, a create and an update,
    both the submission of a modal, change neither the store nor the
    channel, and answer with the configuration error whenever the
    interaction could be deferred; a delete request changes neither, and
    a confirmed delete does not change the channel. *)
Theorem unconfigured_instance (env : Env) (i : Interaction) (w : World) :
  profileChannelId env = None ->
  (let w' := exec (handleIntroModal env i) w in
   store w' = store w /\ channel w' = channel w
   /\ (deferOk env = true ->
       replies w' = replies w ++ [EditReply MSG_NOT_CONFIGURED]))
  /\ (let w' := exec (handleEditProfileModal env i) w in
      store w' = store w /\ channel w' = channel w
      /\ (deferOk env = true ->
          replies w' = replies w ++ [EditReply MSG_NOT_CONFIGURED]))
  /\ (let w' := exec (handleDeleteIntroButton env i) w in
      store w' = store w /\ channel w' = channel w)
  /\ channel (exec (handleConfirmDeleteIntro env i) w) = channel w.
Proof.
  intros Hc.
  assert (Hm : let w' := exec (handleIntroModal env i) w in
    store w' = store w /\ channel w' = channel w
    /\ (deferOk env = true ->
        replies w' = replies w ++ [EditReply MSG_NOT_CONFIGURED])).
  { cbv zeta. unfold exec. destruct (deferOk env) eqn:Hd.
    - by rewrite intro_modal_unconfigured.
    - by rewrite intro_modal_not_deferred. }
  split_and!; [exact Hm | exact Hm | |].
  - unfold_handlers. cbv zeta. by repeat (case_match; simplify_eq/=).
  - unfold_handlers. rewrite Hc. by repeat (case_match; simplify_eq/=).
Qed.

(** C7, witness: user 42 submits the form on an instance without
    channel id. *)
Lemma unconfigured_instance_witness :
  let w' := exec (handleIntroModal env_unconfigured (act "42" "intro_modal"))
                 published_world in
  store w' = store published_world /\ channel w' = channel published_world
  /\ replies w' = replies published_world ++ [EditReply MSG_NOT_CONFIGURED].
Proof.
  destruct (proj1 (unconfigured_instance env_unconfigured
                     (act "42" "intro_modal") published_world eq_refl))
    as (Hs & Hc & Hr).
  exact (conj Hs (conj Hc (Hr eq_refl))).
Defined.

(** C7, counterexample: no channel id is set and user 42 has a record;
    the confirmed delete removes the record and answers that the
    introduction has been deleted. *)
Lemma unconfigured_confirm_deletes :
  profileChannelId env_unconfigured = None
  /\ is_Some (store published_world !! ("42" : jstring))
  /\ store world_after_unconfigured_confirm !! ("42" : jstring) = None
  /\ replies world_after_unconfigured_confirm
     = replies published_world ++ [Update MSG_DELETED].
Proof.
  split_and!.
  - reflexivity.
  - vm_compute. eauto.
  - vm_compute. reflexivity.
  - vm_compute. reflexivity.
Qed.

Lemma publish_store env i w id :
  publishes env id ->
  store (exec (handleIntroModal env i) w)
  = <[user i := saved_profile id (submitted i)
        (chosen_summary
           (generateIntroSummary (generator env) (submitted i)))]> (store w).
Proof.
  intros (Hd & [c Hc] & Hf & He & Hs).
  unfold_handlers. cbv zeta. fold (submitted i).
  remember (chosen_summary
              (generateIntroSummary (generator env) (submitted i))) as chosen.
  rewrite Hd, Hc. simpl. rewrite Hf. simpl.
  repeat (case_match; simplify_eq/=); try congruence; reflexivity.
Qed.

(** The artifact a submission that goes through puts on the channel. *)
Lemma publish_artifact env i w id :
  publishes env id ->
  exists a,
    channel (exec (handleIntroModal env i) w) !! id = Some a
    /\ mention (embed a) = user i
    /\ description (embed a)
       = summary (chosen_summary
                    (generateIntroSummary (generator env) (submitted i)))
    /\ components a = profile_buttons (user i).
Proof.
  intros (Hd & [c Hc] & Hf & He & Hs).
  unfold_handlers. cbv zeta. fold (submitted i).
  remember (chosen_summary
              (generateIntroSummary (generator env) (submitted i))) as chosen.
  rewrite Hd, Hc. simpl. rewrite Hf. simpl.
  repeat (case_match; simplify_eq/=); try congruence;
    (eexists; split; [apply lookup_insert_eq | by split_and!]).
Qed.

(** The channel after a submission that goes through, for a user whose
    record pointed to [old] and whose old message can be fetched and
    deleted. *)
Lemma publish_channel env i w id p old :
  publishes env id ->
  store w !! user i = Some p ->
  truthy_id (Profile.messageId p) = Some old ->
  messageFetchOk env = true -> messageDeleteOk env = true ->
  exists a,
    channel (exec (handleIntroModal env i) w)
    = <[id := a]> (delete old (channel w)).
Proof.
  intros (Hd & [c Hc] & Hf & He & Hs) Hp Hid Hmf Hmd.
  unfold_handlers. cbv zeta. rewrite Hd, Hc. simpl. rewrite Hf. simpl.
  rewrite Hp. simpl. rewrite Hid.
  repeat (case_match; simplify_eq/=); try congruence;
    eexists; rewrite ?delete_id by done; reflexivity.
Qed.

(** The record is written by a submission that goes through, and by no
    other. *)
Lemma no_publish_no_save env i w :
  (forall id, ~ publishes env id) ->
  store (exec (handleIntroModal env i) w) = store w.
Proof.
  intros Hno.
  destruct (deferOk env) eqn:Hd;
    [| unfold exec; by rewrite intro_modal_not_deferred].
  destruct (profileChannelId env) as [c |] eqn:Hc;
    [| unfold exec; by rewrite intro_modal_unconfigured].
  destruct (channelFetchOk env) eqn:Hf, (embedOk env) eqn:He,
    (sendResult env) as [id |] eqn:Hs;
    try (by destruct (Hno id); repeat split; eauto);
    unfold_handlers; cbv zeta; rewrite Hd, Hc; simpl; rewrite Hf; simpl;
    repeat (case_match; simplify_eq/=); congruence.
Qed.

(** C10 (amended). Submitting the edit-profile modal is submitting the
    intro modal: on every input the two handlers give the same result, the
    same store, the same channel and the same replies. Whenever the
    submission goes through (deferred, channel id set and resolved,
    builders and send working), the update regenerates the content from
    the submitted fields, puts it on the channel as the new artifact and
    overwrites the user's record with the new id and that content; the
    old artifact is taken off the channel when its fetch and delete work.
    In every other case the record is left as it was. *)
Theorem edit_modal_is_intro_modal (env : Env) (i : Interaction) (w : World) :
  handleEditProfileModal env i w = handleIntroModal env i w
  /\ (let w' := exec (handleEditProfileModal env i) w in
      let chosen :=
        chosen_summary (generateIntroSummary (generator env) (submitted i)) in
      (forall id, publishes env id ->
         store w' = <[user i := saved_profile id (submitted i) chosen]>
                      (store w)
         /\ (exists a, channel w' !! id = Some a
                       /\ mention (embed a) = user i
                       /\ description (embed a) = summary chosen
                       /\ components a = profile_buttons (user i))
         /\ (forall p old,
               store w !! user i = Some p ->
               truthy_id (Profile.messageId p) = Some old ->
               messageFetchOk env = true -> messageDeleteOk env = true ->
               exists a, channel w' = <[id := a]> (delete old (channel w))))
      /\ ((forall id, ~ publishes env id) -> store w' = store w)).
Proof.
  split; [reflexivity |]. cbv zeta. unfold handleEditProfileModal. split.
  - intros id Hpub. split_and!.
    + by apply publish_store.
    + by apply publish_artifact.
    + intros p old Hp Hid Hmf Hmd. by eapply publish_channel.
  - apply no_publish_no_save.
Qed.

(** C10, witness: user 42, whose artifact is 5001, submits the
    edit-profile modal, the generator answering "not json at all" and the
    send returning 5002. *)
Lemma edit_modal_is_intro_modal_witness :
  let w' := exec (handleEditProfileModal env_republish
                    (act "42" "edit_profile_modal")) published_world in
  store w'
  = <[("42" : jstring) :=
        saved_profile "5002" (submitted (act "42" "edit_profile_modal"))
          {| summary := VStr "not json at all";
             experienceLevel := "Beginner";
             skills := VStr "Not specified" |}]> (store published_world)
  /\ (exists a, channel w' !! ("5002" : jstring) = Some a
                /\ description (embed a) = VStr "not json at all")
  /\ (exists a, channel w'
                = <[("5002" : jstring) := a]>
                    (delete ("5001" : jstring) (channel published_world))).
Proof.
  assert (Hpub : publishes env_republish "5002").
  { repeat split; try reflexivity. by eexists. }
  destruct (proj1 (proj2 (edit_modal_is_intro_modal env_republish
                            (act "42" "edit_profile_modal") published_world))
              "5002" Hpub) as (Hs & (a & Ha & _ & Hd & _) & Hc).
  split_and!.
  - exact Hs.
  - exists a. split; [exact Ha | exact Hd].
  - apply (Hc (saved_profile "5001" (submitted (act "42" "intro_modal"))
                 (createFallbackSummary (submitted (act "42" "intro_modal"))))
              "5001"); reflexivity.
Defined.

(** C10, counterexample: user 42 has a record and the artifact 5001, and
    submits the edit-profile modal; the old artifact is retracted and the
    send fails. The record is not overwritten: it still names 5001 and
    holds the old summary, not the one generated from this submission; and
    the artifact is not replaced: 5001 is gone and nothing is on the
    channel. *)
Lemma failed_update_replaces_nothing :
  store world_after_failed_update = store published_world
  /\ (exists p,
        store world_after_failed_update !! ("42" : jstring) = Some p
        /\ Profile.messageId p = Some "5001"
        /\ Profile.summary p
           ≠ summary (chosen_summary
                        (generateIntroSummary (generator env_republish_fails)
                           (submitted (act "42" "edit_profile_modal")))))
  /\ is_Some (channel published_world !! ("5001" : jstring))
  /\ channel world_after_failed_update = ∅.
Proof.
  split_and!.
  - vm_compute. reflexivity.
  - eexists. split_and!.
    + vm_compute. reflexivity.
    + reflexivity.
    + intros H. vm_compute in H. discriminate.
  - vm_compute. eauto.
  - vm_compute. reflexivity.
Qed.

(** ** Further properties *)

(** *** The cleaning of the response *)

Lemma strip_fences_unfold c1 c2 c3 r :
  strip_fences (c1 :: c2 :: c3 :: r)
  = if (c1 =? BACKTICK) && (c2 =? BACKTICK) && (c3 =? BACKTICK)
    then strip_fences (skip_lf r)
    else c1 :: strip_fences (c2 :: c3 :: r).
Proof.
  simpl. destruct ((c1 =? BACKTICK) && (c2 =? BACKTICK) && (c3 =? BACKTICK));
    [| done].
  destruct r as [| nl r']; [done |]. simpl. by destruct (nl =? LF).
Qed.

Lemma skip_lf_length r : (length (skip_lf r) <= length r)%nat.
Proof.
  destruct r as [| nl r']; simpl; [lia |]. destruct (nl =? LF); simpl; lia.
Qed.

Lemma strip_fences_starts_tick x :
  starts_tick (strip_fences x) = true -> starts_tick x = true.
Proof.
  destruct x as [| c1 [| c2 [| c3 r]]]; try done.
  rewrite strip_fences_unfold.
  destruct (c1 =? BACKTICK) eqn:H1; simpl; [done |]. by rewrite H1.
Qed.

Lemma starts_2ticks_cons c y :
  starts_2ticks (c :: y) = (c =? BACKTICK) && starts_tick y.
Proof. destruct y; simpl; [by rewrite andb_false_r | done]. Qed.

Lemma strip_fences_starts_2ticks x :
  starts_2ticks (strip_fences x) = true -> starts_2ticks x = true.
Proof.
  destruct x as [| c1 [| c2 [| c3 r]]]; try done.
  rewrite strip_fences_unfold.
  change (starts_2ticks (c1 :: c2 :: c3 :: r))
    with ((c1 =? BACKTICK) && (c2 =? BACKTICK)).
  destruct (c1 =? BACKTICK) eqn:H1; cbn [andb].
  - destruct (c2 =? BACKTICK) eqn:H2; cbn [andb]; [done |].
    rewrite starts_2ticks_cons, H1. cbn [andb]. intros Ht.
    apply strip_fences_starts_tick in Ht. simpl in Ht. congruence.
  - rewrite starts_2ticks_cons, H1. done.
Qed.

Lemma occurs_in_cons needle c y :
  occurs_in needle y -> occurs_in needle (c :: y).
Proof. intros (a & b & ->). by exists (c :: a), b. Qed.

Lemma fence_occurs_inv c y :
  occurs_in FENCE (c :: y) ->
  (c =? BACKTICK) && starts_2ticks y = true \/ occurs_in FENCE y.
Proof.
  intros (a & b & H). destruct a as [| d a].
  - left. simpl in H. injection H as -> ->. done.
  - right. injection H as -> ->. by exists a, b.
Qed.

(** The second replacement leaves no fence behind. *)
Lemma strip_fences_no_fence x : ~ occurs_in FENCE (strip_fences x).
Proof.
  remember (length x) as n eqn:Hn. revert x Hn.
  induction n as [n IH] using lt_wf_ind. intros x ->.
  destruct x as [| c1 [| c2 [| c3 r]]].
  - intros (a & b & H). by destruct a.
  - intros (a & b & H). by destruct a as [| ? [| ? ?]].
  - intros (a & b & H). by destruct a as [| ? [| ? [| ? ?]]].
  - rewrite strip_fences_unfold.
    destruct ((c1 =? BACKTICK) && (c2 =? BACKTICK) && (c3 =? BACKTICK))
      eqn:Hf.
    + eapply IH; [| reflexivity]. pose proof (skip_lf_length r).
      simpl. lia.
    + intros [Hh | Ht]%fence_occurs_inv.
      * apply andb_prop in Hh as [H1 H2].
        apply strip_fences_starts_2ticks in H2. simpl in H2.
        apply andb_prop in H2 as [H2 H3]. by rewrite H1, H2, H3 in Hf.
      * revert Ht. eapply IH; [| reflexivity]. simpl. lia.
Qed.

Lemma occurs_in_infix needle a y b :
  occurs_in needle y -> occurs_in needle (a ++ y ++ b).
Proof.
  intros (p & q & ->). exists (a ++ p), (q ++ b).
  by rewrite <- !app_assoc.
Qed.

Lemma trim_start_suffix s : exists a, s = a ++ trim_start s.
Proof.
  induction s as [| c s [a IH]]; [by exists [] |]. simpl.
  destruct (is_js_space c); [| by exists []].
  exists (c :: a). simpl. by rewrite <- IH.
Qed.

Lemma trim_infix s : exists a b, s = a ++ trim s ++ b.
Proof.
  unfold trim. destruct (trim_start_suffix s) as [a Ha].
  destruct (trim_start_suffix (reverse (trim_start s))) as [b Hb].
  exists a, (reverse b). rewrite <- reverse_app, <- Hb, reverse_involutive.
  exact Ha.
Qed.

Lemma from_first_suffix c x y :
  from_first c x = Some y -> exists a, x = a ++ y.
Proof.
  induction x as [| d x IH]; [done |]. simpl.
  destruct (d =? c).
  - intros [= <-]. by exists [].
  - intros [a ->]%IH. by exists (d :: a).
Qed.

Lemma drop_before_first_brace_infix x :
  exists a, x = a ++ drop_before_first_brace x.
Proof.
  unfold drop_before_first_brace.
  destruct (from_first LBRACE x) as [y |] eqn:H; simpl.
  - by eapply from_first_suffix.
  - by exists [].
Qed.

Lemma drop_after_last_brace_infix x :
  exists b, x = drop_after_last_brace x ++ b.
Proof.
  unfold drop_after_last_brace.
  destruct (from_first RBRACE (reverse x)) as [y |] eqn:H; simpl.
  - apply from_first_suffix in H as [a Ha]. exists (reverse a).
    by rewrite <- reverse_app, <- Ha, reverse_involutive.
  - exists []. by rewrite app_nil_r.
Qed.

(** The cleaned response is a piece of the response stripped of its
    fences. *)
Lemma clean_response_infix x :
  exists a b,
    strip_fences (strip_json_fences x) = a ++ clean_response x ++ b.
Proof.
  unfold clean_response.
  set (y := strip_fences (strip_json_fences x)).
  destruct (drop_before_first_brace_infix y) as [a Ha].
  destruct (drop_after_last_brace_infix (drop_before_first_brace y))
    as [b Hb].
  destruct (trim_infix (drop_after_last_brace (drop_before_first_brace y)))
    as (a' & b' & Ht).
  exists (a ++ a'), (b' ++ b).
  rewrite Ha at 1. rewrite Hb at 1. rewrite Ht at 1.
  by rewrite <- !app_assoc.
Qed.

(** X1. No code fence is left in the cleaned response, whatever the
    generator answered. *)
Theorem clean_response_no_fence (responseText : jstring) :
  ~ occurs_in FENCE (clean_response responseText).
Proof.
  intros H. destruct (clean_response_infix responseText) as (a & b & Hx).
  apply (strip_fences_no_fence (strip_json_fences responseText)).
  rewrite Hx. by apply occurs_in_infix.
Qed.

Lemma trim_start_id c s : is_js_space c = false -> trim_start (c :: s) = c :: s.
Proof. intros H. simpl. by rewrite H. Qed.

(** X2. When the response stripped of its fences has a closing brace after
    its first opening brace, the cleaned response is exactly the text from
    that first opening brace to the last closing brace. *)
Theorem clean_response_outermost_braces (responseText pre mid post : jstring) :
  strip_fences (strip_json_fences responseText)
  = pre ++ LBRACE :: mid ++ RBRACE :: post ->
  LBRACE ∉ pre -> RBRACE ∉ post ->
  clean_response responseText = LBRACE :: mid ++ [RBRACE].
Proof.
  intros Hx Hpre Hpost. unfold clean_response. rewrite Hx.
  rewrite drop_before_first_brace_split by done.
  change (LBRACE :: mid ++ RBRACE :: post)
    with ((LBRACE :: mid) ++ RBRACE :: post).
  rewrite drop_after_last_brace_split by done.
  unfold trim. rewrite <- app_comm_cons, trim_start_id by done.
  rewrite app_comm_cons, reverse_app.
  change (reverse [RBRACE]) with [RBRACE]. rewrite <- app_comm_cons.
  rewrite trim_start_id by done.
  rewrite reverse_cons. simpl. by rewrite reverse_involutive.
Qed.

(** Witness: the fenced sample, whose stripped text is the object followed
    by a line feed. *)
Lemma clean_response_outermost_braces_witness :
  clean_response fenced_response
  = LBRACE :: dq "'summary':'x','experienceLevel':'Pro','skills':'Go'"
      ++ [RBRACE].
Proof.
  apply (clean_response_outermost_braces fenced_response []
           (dq "'summary':'x','experienceLevel':'Pro','skills':'Go'") NL).
  - reflexivity.
  - apply not_elem_of_nil.
  - vm_compute. intros H. apply list_elem_of_In in H. simpl in H.
    destruct H as [H | []]. discriminate.
Defined.

(** *** The summary pipeline *)

Lemma deliver_defined v stk : v ≠ VUndefined -> pstate_defined (deliver v stk).
Proof. intros Hv. by destruct stk as [| [items | props key] stk]. Qed.

Lemma parse_step_defined st t st' :
  parse_step st t = Some st' -> pstate_defined st'.
Proof.
  destruct st, t; simpl; intros [= <-]; try done;
    by apply deliver_defined.
Qed.

Lemma parse_from_defined st ts v :
  pstate_defined st -> parse_from st ts = Some v -> v ≠ VUndefined.
Proof.
  revert st. induction ts as [| t ts IH]; intros st Hst; simpl.
  - destruct st; try done. by intros [= <-].
  - destruct (parse_step st t) as [st' |] eqn:Hs; [| done]. simpl.
    apply IH. by eapply parse_step_defined.
Qed.

(** [JSON.parse] never returns [undefined]. *)
Lemma JSON_parse_defined text : JSON_parse text ≠ Some VUndefined.
Proof.
  unfold JSON_parse. destruct (lex text) as [ts |]; [| done]. simpl.
  intros H. by eapply (parse_from_defined (PValue [])) in H.
Qed.

Lemma summary_of_parsed_none parsed d :
  summary_of_parsed parsed d = None <-> parsed = VNull \/ parsed = VUndefined.
Proof.
  destruct parsed; simpl; split; try done; try (intros [|]; done); eauto.
Qed.

Lemma summary_of_text_as_summary t d :
  is_Some (summary_of_parsed (text_as_summary t) d).
Proof. by eexists. Qed.

(** X3. [generateIntroSummary] reports a failure exactly when there is no
    usable response (no client, a call that throws, no text, a blank
    text) or when the cleaned response is the JSON literal null; the
    fallback it then carries is that of [createFallbackSummary]. *)
Theorem failure_exactly_when (gen : GenOutcome) (d : IntroData) :
  (exists error fallback,
     generateIntroSummary gen d = AiFailure error fallback)
  <-> (no_response gen = true
       \/ exists t, gen = ResponseText t
                    /\ JSON_parse (clean_response t) = Some VNull).
Proof.
  destruct gen as [| msg | | t];
    try (split; [by left | intros _; by do 2 eexists]).
  change (no_response (ResponseText t)) with (blank t).
  destruct (blank t) eqn:Hb.
  - rewrite generate_blank by done. split; [by left | by do 2 eexists].
  - rewrite generate_response by done.
    destruct (JSON_parse (clean_response t)) as [parsed |] eqn:Hp; simpl.
    + destruct (summary_of_parsed parsed d) as [r |] eqn:Hr.
      * split; [by intros (? & ? & ?) |].
        intros [? | (t' & [= <-] & H)]; [done |].
        rewrite Hp in H. by injection H as ->.
      * apply summary_of_parsed_none in Hr as [-> | ->].
        -- split; [intros _; right; by exists t | by do 2 eexists].
        -- by destruct (JSON_parse_defined (clean_response t)).
    + split; [by intros (? & ? & ?) |].
      intros [? | (t' & [= <-] & H)]; [done |]. by rewrite Hp in H.
Qed.

(** X4. The pipeline never makes up a level: Builder or Pro comes out only
    when the cleaned response parses to an object that says so. *)
Theorem level_comes_from_response (gen : GenOutcome) (d : IntroData)
    (level : jstring) :
  experienceLevel (chosen_summary (generateIntroSummary gen d)) = level ->
  level ≠ "Beginner" ->
  exists t props,
    gen = ResponseText t
    /\ JSON_parse (clean_response t) = Some (VObj props)
    /\ own_prop "experienceLevel" props = VStr level
    /\ level ∈ validLevels.
Proof.
  intros Hl Hne. destruct gen as [| msg | | t]; try (by destruct Hne).
  destruct (blank t) eqn:Hb.
  { rewrite generate_blank in Hl by done. by destruct Hne. }
  rewrite generate_response in Hl by done.
  destruct (JSON_parse (clean_response t)) as [parsed |] eqn:Hp;
    simpl in Hl; [| by destruct Hne].
  destruct parsed as [| | b | m e | s | l | props];
    try (by destruct Hne).
  exists t, props. split_and!; try done.
  - simpl in Hl. destruct (own_prop "experienceLevel" props)
      as [| | b | m e | s | l | l]; simpl in Hl; try (by destruct Hne).
    case_bool_decide; by simplify_eq.
  - subst level. apply coerce_level_valid.
Qed.

(** Witness: the fenced sample says Pro. *)
Lemma level_comes_from_response_witness :
  exists t props,
    ResponseText fenced_response = ResponseText t
    /\ JSON_parse (clean_response t) = Some (VObj props)
    /\ own_prop "experienceLevel" props = VStr "Pro"
    /\ ("Pro" : jstring) ∈ validLevels.
Proof.
  apply (level_comes_from_response (ResponseText fenced_response) ravi "Pro");
    [reflexivity | discriminate].
Defined.

(** X5. The fallback is taken field by field: when the cleaned response
    parses to an object, a falsy [summary] is replaced by the template
    sentence while a truthy [skills] of the answer is kept, and the other
    way round. *)
Theorem fallback_field_by_field (t : jstring) (d : IntroData)
    (props : list (jstring * JsVal)) :
  blank t = false ->
  JSON_parse (clean_response t) = Some (VObj props) ->
  let r := chosen_summary (generateIntroSummary (ResponseText t) d) in
  (truthy (own_prop "summary" props) = false ->
     summary r = summary (createFallbackSummary d))
  /\ (truthy (own_prop "summary" props) = true ->
      summary r = own_prop "summary" props)
  /\ (truthy (own_prop "skills" props) = false ->
      skills r = VStr "Not specified")
  /\ (truthy (own_prop "skills" props) = true ->
      skills r = own_prop "skills" props).
Proof.
  intros Hb Hp. rewrite generate_response, Hp by done. cbn.
  unfold js_or. split_and!; by intros ->.
Qed.

(** Witness: an answer with an empty summary and skills "Go". *)
Lemma fallback_field_by_field_witness :
  let r := chosen_summary
             (generateIntroSummary
                (ResponseText
                   (dq "{'summary':'','experienceLevel':'Pro','skills':'Go'}"))
                ravi) in
  summary r = summary (createFallbackSummary ravi)
  /\ skills r = VStr "Go".
Proof.
  destruct (fallback_field_by_field
              (dq "{'summary':'','experienceLevel':'Pro','skills':'Go'}")
              ravi
              [("summary", VStr []); ("experienceLevel", VStr "Pro");
               ("skills", VStr "Go")] eq_refl eq_refl)
    as (Hs & _ & _ & Hk).
  exact (conj (Hs eq_refl) (Hk eq_refl)).
Defined.

Lemma pipeline_level_valid gen d :
  experienceLevel (chosen_summary (generateIntroSummary gen d)) ∈ validLevels.
Proof.
  destruct gen as [| msg | | t]; try (apply list_elem_of_here).
  destruct (blank t) eqn:Hb.
  - rewrite generate_blank by done. apply list_elem_of_here.
  - rewrite generate_response by done.
    destruct (summary_of_parsed _ d) as [r |] eqn:Hr.
    + by apply summary_of_parsed_usable in Hr as (_ & ? & _).
    + apply list_elem_of_here.
Qed.

(** X6. The colour and the emoji of a posted profile are always those of one
    of the three levels: the defaults of [getExperienceColor] and
    [getExperienceEmoji] are never what the pipeline's level gives. *)
Theorem level_defaults_unused (gen : GenOutcome) (d : IntroData) :
  let level := experienceLevel (chosen_summary (generateIntroSummary gen d)) in
  getExperienceColor level ∈ [0x00FF7F; 0xFFD700; 0xFF0000]%Z
  /\ getExperienceColor level ≠ 0x4A90E2%Z
  /\ getExperienceEmoji level ∈ ["🟢"; "🟡"; "🔴" : jstring]
  /\ getExperienceEmoji level ≠ "🔵".
Proof.
  cbv zeta. pose proof (pipeline_level_valid gen d) as Hl.
  unfold validLevels in Hl.
  repeat (apply elem_of_cons in Hl as [-> | Hl]);
    [| | | by apply elem_of_nil in Hl];
    (split_and!; [vm_compute; set_solver | done | vm_compute; set_solver
                 | done]).
Qed.

(** Witness: the response null, and a failed call. *)
Lemma failure_exactly_when_witness :
  (exists error fallback,
     generateIntroSummary (ResponseText "null") ravi
     = AiFailure error fallback)
  /\ (exists error fallback,
        generateIntroSummary (CallThrows "fetch failed") ravi
        = AiFailure error fallback).
Proof.
  split.
  - apply (proj2 (failure_exactly_when (ResponseText "null") ravi)).
    right. by exists "null".
  - apply (proj2 (failure_exactly_when (CallThrows "fetch failed") ravi)).
    by left.
Defined.

(** *** The handlers, further *)

(** X7. The handlers whose calls to the outside all sit in a [try] let no
    exception out: whatever the channel fetch, the message fetch and
    delete, the builders of the profile, the send, the generator and
    [showModal] do, the intro button, the two modal submissions, the
    update button, the confirm and the cancel return normally.
    [handleDeleteIntroButton] is not among them: it builds its
    confirmation buttons outside any [try]. *)
Theorem handlers_return_normally (env : Env) (i : Interaction) (w : World) :
  (handleIntroButton env i w).1 = Returned tt
  /\ (handleIntroModal env i w).1 = Returned tt
  /\ (handleEditProfileModal env i w).1 = Returned tt
  /\ (handleUpdateIntroButton env i w).1 = Returned tt
  /\ (handleConfirmDeleteIntro env i w).1 = Returned tt
  /\ (handleCancelDeleteIntro env i w).1 = Returned tt.
Proof.
  split_and!; unfold_handlers; cbv zeta;
    by repeat (case_match; simplify_eq/=).
Qed.

(** X8. The intro button, the update button, the delete button and the
    cancel button change neither the store nor the channel, and answer the
    user with exactly one reply. *)
Theorem buttons_only_reply (env : Env) (i : Interaction) (w : World) :
  (exists r, exec (handleIntroButton env i) w = add_reply r w)
  /\ (exists r, exec (handleUpdateIntroButton env i) w = add_reply r w)
  /\ (exists r, exec (handleDeleteIntroButton env i) w = add_reply r w)
  /\ (exists r, exec (handleCancelDeleteIntro env i) w = add_reply r w).
Proof.
  split_and!; unfold_handlers; cbv zeta;
    repeat (case_match; simplify_eq/=); by eexists.
Qed.

(** X9. A modal submission that could be deferred always ends with a final
    answer to the user: the configuration error, the channel error, the
    publish error, the generic error or the success message. One that
    could not be deferred changes nothing and says nothing. *)
Theorem modal_always_answers (env : Env) (i : Interaction) (w : World) :
  (deferOk env = true ->
     exists earlier final,
       replies (exec (handleIntroModal env i) w)
       = replies w ++ earlier ++ [final]
       /\ is_final_answer final)
  /\ (deferOk env = false -> exec (handleIntroModal env i) w = w).
Proof.
  split; intros Hd; [| unfold exec; by rewrite intro_modal_not_deferred].
  unfold_handlers. cbv zeta. rewrite Hd. unfold is_final_answer.
  repeat (case_match; simplify_eq/=);
    rewrite <- ?app_assoc; simpl;
    first
      [ by (exists [], (EditReply MSG_NOT_CONFIGURED); eauto 10)
      | by (exists [], (EditReply MSG_CHANNEL_NOT_FOUND); eauto 10)
      | by (exists [EditReply MSG_PROCESSING], (EditReply MSG_POST_FAILED);
            eauto 10)
      | by (exists [EditReply MSG_PROCESSING], (SafeError MSG_WENT_WRONG);
            eauto 10)
      | by (eexists [EditReply MSG_PROCESSING], _; split; [reflexivity |];
            do 4 right; eauto) ].
Qed.

(** Witness: a submission on an instance whose channel cannot be
    resolved. *)
Lemma modal_always_answers_witness :
  exists earlier final,
    replies (exec (handleIntroModal env_unreachable (act "42" "intro_modal"))
               empty_world)
    = replies empty_world ++ earlier ++ [final]
    /\ is_final_answer final.
Proof.
  apply (proj1 (modal_always_answers env_unreachable (act "42" "intro_modal")
                  empty_world)).
  reflexivity.
Defined.

(** X10. A handler run touches the profile of the acting user only: the record
    of any other user is as it was after a modal submission and after a
    confirmed delete, and a message of the channel changes only if it is
    the one just sent or the one the acting user's record pointed to. *)
Theorem only_own_profile_touched (env : Env) (i : Interaction) (w : World)
    (other : jstring) :
  other ≠ user i ->
  store (exec (handleIntroModal env i) w) !! other = store w !! other
  /\ store (exec (handleConfirmDeleteIntro env i) w) !! other
     = store w !! other
  /\ (forall m,
        sendResult env ≠ Some m ->
        (store w !! user i) ≫= (fun p => truthy_id (Profile.messageId p))
        ≠ Some m ->
        channel (exec (handleIntroModal env i) w) !! m = channel w !! m
        /\ channel (exec (handleConfirmDeleteIntro env i) w) !! m
           = channel w !! m).
Proof.
  intros Hne. split_and!.
  - unfold_handlers. cbv zeta.
    repeat (case_match; simplify_eq/=); try done;
      by rewrite lookup_insert_ne.
  - unfold_handlers. cbv zeta.
    repeat (case_match; simplify_eq/=); try done;
      rewrite lookup_delete_ne; try done;
      match goal with H : bool_decide _ = false |- _ =>
        apply bool_decide_eq_false in H; apply dec_stable in H;
        congruence end.
  - intros m Hsend Hold. split.
    + unfold_handlers. cbv zeta.
      repeat (case_match; simplify_eq/=); try done;
        rewrite ?lookup_insert_ne by congruence;
        rewrite ?lookup_delete_ne by congruence; done.
    + unfold_handlers. cbv zeta.
      repeat (case_match; simplify_eq/=); try done;
        match goal with H : bool_decide _ = false |- _ =>
          apply bool_decide_eq_false in H; apply dec_stable in H; subst
        end;
        apply lookup_delete_ne; intros ->; by apply Hold.
Qed.

(** Witness: user 7 submits the form and user 42 keeps the record. *)
Lemma only_own_profile_touched_witness :
  store (exec (handleIntroModal env_republish (act "7" "intro_modal"))
           published_world) !! ("42" : jstring)
  = store published_world !! ("42" : jstring).
Proof.
  apply (only_own_profile_touched env_republish (act "7" "intro_modal")
           published_world "42").
  discriminate.
Defined.

(** X11. An update that goes through replaces the artifact: with a record
    pointing to [old], a retraction and a send that work, the channel
    afterwards is the channel before without [old] and with the new
    message, and the record points to the new message. *)
Theorem update_replaces_artifact (env : Env) (i : Interaction) (w : World)
    (p : Profile.t) (old new : jstring) :
  publishes env new ->
  messageFetchOk env = true -> messageDeleteOk env = true ->
  store w !! user i = Some p ->
  truthy_id (Profile.messageId p) = Some old ->
  let w' := exec (handleIntroModal env i) w in
  (exists a, channel w' = <[new := a]> (delete old (channel w))
             /\ components a = profile_buttons (user i))
  /\ (exists p', store w' !! user i = Some p'
                 /\ Profile.messageId p' = Some new)
  /\ (old ≠ new -> channel w' !! old = None).
Proof.
  intros (Hd & [c Hc] & Hf & He & Hs) Hmf Hmd Hp Hid.
  unfold_handlers. cbv zeta. rewrite Hd, Hc. simpl. rewrite Hf. simpl.
  rewrite Hp. simpl. rewrite Hid.
  repeat (case_match; simplify_eq/=); try congruence.
  all: split_and!;
    [ eexists; split; [rewrite ?delete_id by done; reflexivity | reflexivity]
    | eexists; split; [apply lookup_insert_eq | reflexivity]
    | intros Hne; rewrite lookup_insert_ne by done;
      first [apply lookup_delete_eq | done] ].
Qed.

(** Witness: user 42, whose artifact is 5001, updates and gets 5002. *)
Lemma update_replaces_artifact_witness :
  let w' := exec (handleIntroModal env_republish (act "42" "intro_modal"))
                 published_world in
  (exists p', store w' !! ("42" : jstring) = Some p'
              /\ Profile.messageId p' = Some "5002")
  /\ channel w' !! ("5001" : jstring) = None.
Proof.
  destruct (update_replaces_artifact env_republish (act "42" "intro_modal")
              published_world
              (saved_profile "5001" (submitted (act "42" "intro_modal"))
                 (createFallbackSummary (submitted (act "42" "intro_modal"))))
              "5001" "5002")
    as (_ & Hs & Hold); try reflexivity.
  { repeat split; try reflexivity. by eexists. }
  split; [exact Hs | apply Hold; discriminate].
Defined.

(** X12. An update whose send fails leaves the record as it was although the
    artifact it points to has been retracted: the record then names a
    message that is no longer on the channel. *)
Theorem failed_update_keeps_stale_record (env : Env) (i : Interaction)
    (w : World) (p : Profile.t) (old : jstring) :
  deferOk env = true -> is_Some (profileChannelId env) ->
  channelFetchOk env = true -> embedOk env = true ->
  sendResult env = None ->
  messageFetchOk env = true -> messageDeleteOk env = true ->
  store w !! user i = Some p ->
  truthy_id (Profile.messageId p) = Some old ->
  let w' := exec (handleIntroModal env i) w in
  store w' = store w
  /\ channel w' = delete old (channel w)
  /\ replies w'
     = replies w ++ [EditReply MSG_PROCESSING; EditReply MSG_POST_FAILED].
Proof.
  intros Hd [c Hc] Hf He Hs Hmf Hmd Hp Hid.
  unfold_handlers. cbv zeta. rewrite Hd, Hc. simpl. rewrite Hf. simpl.
  rewrite Hp. simpl. rewrite Hid.
  repeat (case_match; simplify_eq/=); try congruence;
    rewrite <- ?app_assoc; split_and!; try done.
  by rewrite delete_id.
Qed.

(** Witness: user 42 updates and the send fails. *)
Lemma failed_update_keeps_stale_record_witness :
  let w' := exec (handleIntroModal env_republish_fails
                    (act "42" "intro_modal")) published_world in
  store w' = store published_world
  /\ channel w' = delete ("5001" : jstring) (channel published_world)
  /\ replies w'
     = replies published_world
       ++ [EditReply MSG_PROCESSING; EditReply MSG_POST_FAILED].
Proof.
  apply (failed_update_keeps_stale_record env_republish_fails
           (act "42" "intro_modal") published_world
           (saved_profile "5001" (submitted (act "42" "intro_modal"))
              (createFallbackSummary (submitted (act "42" "intro_modal"))))
           "5001"); try reflexivity.
  by eexists.
Defined.

(** What a create that goes through leaves in the store and on the
    channel. *)
Lemma create_effect env i w id :
  publishes env id -> store w !! user i = None ->
  let w' := exec (handleIntroModal env i) w in
  store w'
  = <[user i := saved_profile id (submitted i)
        (chosen_summary
           (generateIntroSummary (generator env) (submitted i)))]> (store w)
  /\ exists a, channel w' = <[id := a]> (channel w).
Proof.
  intros (Hd & [c Hc] & Hf & He & Hs) Hp.
  unfold_handlers. cbv zeta. rewrite Hd, Hc. simpl. rewrite Hf. simpl.
  rewrite Hp. simpl. rewrite He. simpl. rewrite Hs. simpl.
  split; [reflexivity | by eexists].
Qed.

(** X13. Create then delete is a round trip: for a user without a record and a
    message id that is free, a create that goes through followed by the
    user's confirmed delete with a working retraction gives back the
    store and the channel of before. *)
Theorem create_then_delete (env1 env2 : Env) (i conf : Interaction)
    (w : World) (id : jstring) :
  publishes env1 id -> id ≠ [] -> retract_ok env2 = true ->
  store w !! user i = None -> channel w !! id = None ->
  user conf = user i -> tagged_user 3 conf = Some (user i) ->
  let w' := exec (handleConfirmDeleteIntro env2 conf)
                 (exec (handleIntroModal env1 i) w) in
  store w' = store w /\ channel w' = channel w.
Proof.
  intros Hpub Hid Hr Hp Hch Hu Ht. cbv zeta.
  destruct (create_effect env1 i w id Hpub Hp) as (Hs1 & a & Hc1).
  set (w1 := exec (handleIntroModal env1 i) w) in *.
  destruct (confirm_owner env2 conf w1
              (saved_profile id (submitted i)
                 (chosen_summary
                    (generateIntroSummary (generator env1) (submitted i))))
              id) as (Hs2 & Hc2 & _).
  - by rewrite Hu.
  - by rewrite Hu, Hs1, lookup_insert_eq.
  - simpl. by destruct id.
  - rewrite Hs2, (Hc2 Hr), Hs1, Hc1, Hu.
    split; by apply delete_insert_id.
Qed.

(** Witness: user 42 on the empty world. *)
Lemma create_then_delete_witness :
  let w' := exec (handleConfirmDeleteIntro env_ok
                    (act "42" "confirm_delete_intro_42"))
              (exec (handleIntroModal env_ok (act "42" "intro_modal"))
                 empty_world) in
  store w' = store empty_world /\ channel w' = channel empty_world.
Proof.
  apply (create_then_delete env_ok env_ok (act "42" "intro_modal")
           (act "42" "confirm_delete_intro_42") empty_world "5001");
    try reflexivity; [| discriminate].
  repeat split; try reflexivity. by eexists.
Defined.

(** X15. The owner is read up to the first underscore only: on a control
    attached for the id [a_b], the handlers compare the acting user with
    [a], so the user [a] passes the ownership check of such a control. *)
Theorem owner_read_to_first_underscore (env : Env) (a b : jstring)
    (f : ModalFields) (w : World) :
  UNDERSCORE ∉ a ->
  let owner := a ++ [UNDERSCORE] ++ b in
  let press id := {| user := a; customId := id; fields := f |} in
  Forall (fun btn => tagged_user 2 (press (buttonId btn)) = Some a)
         (profile_buttons owner)
  /\ Forall (fun btn => tagged_user 3 (press (buttonId btn)) = Some a)
            (confirm_buttons owner)
  /\ exec (handleDeleteIntroButton env (press ("delete_intro_" ++ owner))) w
     = add_reply (ReplyEphemeral MSG_CONFIRM_DELETE (confirm_buttons a)) w.
Proof.
  intros Ha owner press.
  assert (Hsplit : forall cur,
            split_go UNDERSCORE cur owner
            = (reverse cur ++ a) :: split_go UNDERSCORE [] b).
  { subst owner. clear press. induction a as [| c a IH]; intros cur; simpl.
    - by rewrite app_nil_r.
    - apply not_elem_of_cons in Ha as [Hc Ha].
      destruct (N.eqb_spec c UNDERSCORE) as [-> | _]; [done |].
      rewrite IH by done. by rewrite reverse_cons, <- app_assoc. }
  split_and!.
  - unfold tagged_user, split, profile_buttons.
    repeat constructor; simpl; by rewrite Hsplit.
  - unfold tagged_user, split, confirm_buttons.
    repeat constructor; simpl; by rewrite Hsplit.
  - unfold_handlers. unfold tagged_user, split. simpl. rewrite Hsplit.
    simpl. by rewrite bool_decide_eq_false_2 by (intros H; by apply H).
Qed.

(** Witness: the ids 1 and 1_2. *)
Lemma owner_read_to_first_underscore_witness :
  exec (handleDeleteIntroButton env_ok (act "1" "delete_intro_1_2"))
       empty_world
  = add_reply (ReplyEphemeral MSG_CONFIRM_DELETE (confirm_buttons "1"))
      empty_world.
Proof.
  apply (owner_read_to_first_underscore env_ok "1" "2" sample_fields
           empty_world).
  apply (bool_decide_eq_false_1 (UNDERSCORE ∈ ("1" : jstring))).
  reflexivity.
Defined.

(** *** The routing of index.js *)

Lemma startsWith_prefix prefix s :
  startsWith prefix s = true <-> exists r, s = prefix ++ r.
Proof.
  revert s. induction prefix as [| p prefix IH]; intros s; simpl.
  - split; [by exists s | done].
  - destruct s as [| c s]; [split; [done | by intros [? ?]] |].
    rewrite andb_true_iff, N.eqb_eq, IH. split.
    + intros [-> [r ->]]. by exists r.
    + intros [r [= -> ->]]. eauto.
Qed.

(** X17. No branch of the button routing shadows another: a custom id goes to
    the handler of a prefix exactly when it starts with that prefix, and
    to the intro or apply handler exactly when it is their id. *)
Theorem button_route_exact (id : jstring) :
  (button_route id = ToIntroButton <-> id = "intro_button")
  /\ (button_route id = ToUpdateIntroButton
      <-> startsWith "update_intro_" id = true)
  /\ (button_route id = ToDeleteIntroButton
      <-> startsWith "delete_intro_" id = true)
  /\ (button_route id = ToConfirmDeleteIntro
      <-> startsWith "confirm_delete_intro_" id = true)
  /\ (button_route id = ToCancelDeleteIntro
      <-> startsWith "cancel_delete_intro_" id = true)
  /\ (button_route id = ToApplyButton <-> id = "project_apply")
  /\ (button_route id = ToApproveButton
      <-> startsWith "approve_project_" id = true)
  /\ (button_route id = ToRejectButton
      <-> startsWith "reject_project_" id = true).
Proof.
  destruct (decide (id = "intro_button")) as [-> | Hi];
    [split_and!; split; intros H; vm_compute in H |- *;
     first [reflexivity | discriminate] |].
  destruct (decide (id = "project_apply")) as [-> | Ha];
    [split_and!; split; intros H; vm_compute in H |- *;
     first [reflexivity | discriminate] |].
  unfold button_route.
  rewrite (bool_decide_eq_false_2 (id = "intro_button")) by done.
  rewrite (bool_decide_eq_false_2 (id = "project_apply")) by done.
  destruct (startsWith "update_intro_" id) eqn:H1;
    [apply startsWith_prefix in H1 as [r ->];
     split_and!; split; intros H; try done; by vm_compute in H |].
  destruct (startsWith "delete_intro_" id) eqn:H2;
    [apply startsWith_prefix in H2 as [r ->];
     split_and!; split; intros H; try done; by vm_compute in H |].
  destruct (startsWith "confirm_delete_intro_" id) eqn:H3;
    [apply startsWith_prefix in H3 as [r ->];
     split_and!; split; intros H; try done; by vm_compute in H |].
  destruct (startsWith "cancel_delete_intro_" id) eqn:H4;
    [apply startsWith_prefix in H4 as [r ->];
     split_and!; split; intros H; try done; by vm_compute in H |].
  destruct (startsWith "approve_project_" id) eqn:H5;
    [apply startsWith_prefix in H5 as [r ->];
     split_and!; split; intros H; try done; by vm_compute in H |].
  destruct (startsWith "reject_project_" id) eqn:H6;
    [apply startsWith_prefix in H6 as [r ->];
     split_and!; split; intros H; try done; by vm_compute in H |].
  split_and!; split; intros H; done.
Qed.

(** *** The fallback as the handler uses it *)

(** X18. The handler fills empty inputs before the pipeline sees them, so the
    defaults of [createFallbackSummary] ("This member", "AI and
    technology") never show: when the generator gives no usable response
    and the profile is posted, the stored summary is built from the name
    and interests as submitted, an empty one reading "Not provided". *)
Theorem stored_fallback_summary (env : Env) (i : Interaction) (w : World)
    (id : jstring) :
  publishes env id -> no_response (generator env) = true ->
  exists p,
    store (exec (handleIntroModal env i) w) !! user i = Some p
    /\ Profile.summary p
       = VStr (text_or (intro_name (fields i)) "Not provided"
               ++ " is interested in "
               ++ text_or (intro_interests (fields i)) "Not provided"
               ++ " and wants to learn and grow in the AI community.")
    /\ Profile.experienceLevel p = "Beginner"
    /\ Profile.skills p = VStr "Not specified".
Proof.
  intros Hpub Hg. rewrite (publish_store env i w id Hpub).
  eexists. split; [apply lookup_insert_eq |].
  assert (Hchosen :
    chosen_summary (generateIntroSummary (generator env) (submitted i))
    = createFallbackSummary (submitted i)).
  { destruct (generator env) as [| msg | | t]; try reflexivity.
    simpl in Hg. by rewrite generate_blank. }
  unfold saved_profile. rewrite Hchosen. split_and!; try reflexivity.
  unfold createFallbackSummary, submitted, text_or. simpl.
  by destruct (intro_name (fields i)), (intro_interests (fields i)).
Qed.

(** Witness: user 42 on the empty world, the generator call failing. *)
Lemma stored_fallback_summary_witness :
  exists p,
    store (exec (handleIntroModal env_ok (act "42" "intro_modal"))
             empty_world) !! ("42" : jstring) = Some p
    /\ Profile.summary p
       = VStr "Ravi is interested in NLP and wants to learn and grow in the AI community."
    /\ Profile.experienceLevel p = "Beginner"
    /\ Profile.skills p = VStr "Not specified".
Proof.
  apply (stored_fallback_summary env_ok (act "42" "intro_modal") empty_world
           "5001"); [| reflexivity].
  repeat split; try reflexivity. by eexists.
Defined.

(** *** The client, start-up, commands and messages *)

(** X19. The client is built at most once: once there is one, every later
    call returns it whatever the key has become; starting without one, a
    series of calls ends with the client of the first call that had a key
    and a constructor that did not throw. *)
Theorem client_built_once (calls : list (option jstring * bool)) :
  (forall client, initializeAI_calls calls (Some client) = Some client)
  /\ initializeAI_calls calls None
     = head (omap (fun c => if c.2 : bool then truthy_id c.1 else None)
                  calls).
Proof.
  assert (Hkeep : forall cs client,
            initializeAI_calls cs (Some client) = Some client).
  { induction cs as [| c cs IH]; intros client; [done |]. apply IH. }
  split; [apply Hkeep |].
  induction calls as [| [key ok] calls IH]; [done |].
  unfold initializeAI_calls in *. simpl.
  destruct ok, (truthy_id key) as [k |]; simpl; try apply IH.
  apply Hkeep.
Qed.

(** X20. A process that got past the start-up checks always has a profile
    channel id for the handlers, whatever the saved configuration holds;
    the other way round, handlers that find no profile channel id run in
    a process that start-up would have ended. *)
Theorem startup_gives_profile_channel (penv : ProcessEnv)
    (configProfileChannelId : option jstring) :
  (forall token, startup penv = Login token ->
     token ≠ []
     /\ is_Some (configured_profile_channel configProfileChannelId penv))
  /\ (configured_profile_channel configProfileChannelId penv = None ->
      startup penv = ExitNoToken \/ startup penv = ExitNoChannels).
Proof.
  assert (Hne : forall x t, truthy_id x = Some t -> t ≠ []).
  { intros [[| c x] |] t [= <-]; done. }
  unfold startup, configured_profile_channel, setting_or.
  destruct (truthy_id (PROFILE_CHANNEL_ID penv)) as [pc |] eqn:Hpc.
  - split.
    + intros token Hl. split.
      * destruct (truthy_id (DISCORD_TOKEN penv)) as [t1 |] eqn:H1;
          [| destruct (truthy_id (TOKEN penv)) as [t2 |] eqn:H2; [| done]];
          destruct (truthy_id (INTRO_CHANNEL_ID penv)); simplify_eq;
          by eapply Hne.
      * destruct (truthy_id configProfileChannelId); by eexists.
    + by destruct (truthy_id configProfileChannelId).
  - split.
    + intros token Hl.
      destruct (truthy_id (DISCORD_TOKEN penv));
        [| destruct (truthy_id (TOKEN penv)); [| done]];
        by destruct (truthy_id (INTRO_CHANNEL_ID penv)).
    + intros _.
      destruct (truthy_id (DISCORD_TOKEN penv));
        [| destruct (truthy_id (TOKEN penv)); [| by left]];
        destruct (truthy_id (INTRO_CHANNEL_ID penv)); by right.
Qed.

(** Witness: a process with TOKEN and both channel ids. *)
Lemma startup_gives_profile_channel_witness :
  ("t0k3n" : jstring) ≠ []
  /\ is_Some (configured_profile_channel None sample_process_env).
Proof.
  apply (proj1 (startup_gives_profile_channel sample_process_env None)
           "t0k3n").
  reflexivity.
Defined.

Lemma load_commands_inv files acc n c :
  fold_left load_command files acc !! n = Some c ->
  acc !! n = Some c
  \/ exists f, (f, c) ∈ files /\ endsWith ".js" f = true
               /\ hasData c = true /\ hasExecute c = true
               /\ dataName c = n.
Proof.
  revert acc. induction files as [| [f m] files IH]; intros acc H; simpl in H.
  - by left.
  - apply IH in H as [H | (f' & Hin & ?)].
    + unfold load_command in H. simpl in H.
      destruct (endsWith ".js" f && hasData m && hasExecute m) eqn:Hok;
        [| by left].
      apply andb_prop in Hok as [[Hjs Hd]%andb_prop He].
      destruct (decide (dataName m = n)) as [<- | Hne].
      * rewrite lookup_insert_eq in H. injection H as <-.
        right. exists f. split_and!; try done. apply list_elem_of_here.
      * rewrite lookup_insert_ne in H by done. by left.
    + right. exists f'. split; [by apply list_elem_of_further | done].
Qed.

(** X21. Only a file of the commands directory that ends in .js and whose
    module has both [data] and [execute] is registered, under its
    [data.name]; and of two such files with one name the later one is the
    command. *)
Theorem commands_are_complete_modules
    (files : list (jstring * CommandModule)) :
  (forall n c, load_commands files !! n = Some c ->
     exists f, (f, c) ∈ files /\ endsWith ".js" f = true
               /\ hasData c = true /\ hasExecute c = true
               /\ dataName c = n)
  /\ (forall f c, endsWith ".js" f = true -> hasData c = true ->
        hasExecute c = true ->
        load_commands (files ++ [(f, c)]) !! dataName c = Some c).
Proof.
  split.
  - intros n c H. apply load_commands_inv in H as [H | H]; [| done].
    by rewrite lookup_empty in H.
  - intros f c Hjs Hd He. unfold load_commands.
    rewrite fold_left_app. simpl. unfold load_command at 1. simpl.
    rewrite Hjs, Hd, He. apply lookup_insert_eq.
Qed.

(** Witness: a directory with a note and one complete command. *)
Lemma commands_are_complete_modules_witness :
  load_commands
    [("notes.txt", {| hasData := true; hasExecute := true;
                      dataName := "notes" |})]
  !! ("notes" : jstring) = None
  /\ load_commands
       ([("notes.txt", {| hasData := true; hasExecute := true;
                          dataName := "notes" |})]
        ++ [("intro.js", {| hasData := true; hasExecute := true;
                            dataName := "intro" |})])
     !! ("intro" : jstring)
     = Some {| hasData := true; hasExecute := true; dataName := "intro" |}.
Proof.
  split; [reflexivity |].
  apply (proj2 (commands_are_complete_modules
                  [("notes.txt", {| hasData := true; hasExecute := true;
                                    dataName := "notes" |})])
           "intro.js"
           {| hasData := true; hasExecute := true; dataName := "intro" |});
    reflexivity.
Defined.

(** X22. A message touches at most one project: none when its author is a
    bot or no project has its channel as chat channel, else the first
    project, in the order of the project data, whose chat channel it
    is. *)
Theorem message_touches_first_project (channelId : jstring)
    (projects : list Project) :
  onMessageCreate true channelId projects = []
  /\ (onMessageCreate false channelId projects = []
      <-> Forall (fun q => chatChannelId q ≠ channelId) projects)
  /\ (forall id,
        onMessageCreate false channelId projects = [id]
        <-> exists before project after,
              projects = before ++ project :: after
              /\ Forall (fun q => chatChannelId q ≠ channelId) before
              /\ chatChannelId project = channelId
              /\ projectId project = id)
  /\ (length (onMessageCreate false channelId projects) <= 1)%nat.
Proof.
  unfold onMessageCreate. split_and!; [done | | |].
  - induction projects as [| q projects IH]; simpl; [done |].
    case_bool_decide as Hq.
    + split; [done |]. intros H. by inversion H.
    + rewrite IH. split; [by constructor | intros H; by inversion H].
  - intros id. induction projects as [| q projects IH]; simpl.
    + split; [done |]. intros (before & p & after & H & _). by destruct before.
    + case_bool_decide as Hq.
      * split.
        -- intros [= <-]. by exists [], q, projects.
        -- intros ([| q' before] & p & after & H & Hb & Hc & Hi).
           ++ by injection H as -> ->; subst.
           ++ injection H as -> ->. by inversion Hb.
      * rewrite IH. split.
        -- intros (before & p & after & -> & Hb & Hc & Hi).
           exists (q :: before), p, after. split_and!; try done.
           by constructor.
        -- intros ([| q' before] & p & after & H & Hb & Hc & Hi).
           ++ injection H as -> ->. done.
           ++ injection H as -> ->. inversion Hb; subst.
              by exists before, p, after.
  - induction projects as [| q projects IH]; simpl; [lia |].
    case_bool_decide; simpl; lia.
Qed.

(** *** The controls of a profile, end to end *)

(** X14. The controls attached for an owner whose id has no underscore carry
    that owner: read back by the handlers they name the owner, so the
    owner pressing the delete button is shown the confirmation with the
    two buttons tagged in turn with the same id, and anybody else is
    refused. *)
Theorem attached_controls_name_owner (env : Env) (owner actor : jstring)
    (f : ModalFields) (w : World) :
  UNDERSCORE ∉ owner ->
  let press id := {| user := actor; customId := id; fields := f |} in
  Forall (fun b => tagged_user 2 (press (buttonId b)) = Some owner)
         (profile_buttons owner)
  /\ Forall (fun b => tagged_user 3 (press (buttonId b)) = Some owner)
            (confirm_buttons owner)
  /\ exec (handleDeleteIntroButton env (press ("delete_intro_" ++ owner))) w
     = add_reply
         (if bool_decide (actor = owner)
          then ReplyEphemeral MSG_CONFIRM_DELETE (confirm_buttons owner)
          else ReplyEphemeral MSG_DELETE_OWN []) w.
Proof.
  intros Ho press.
  destruct (tagged_user_of_buttons owner actor f Ho) as [H2 H3].
  split_and!; [exact H2 | exact H3 |].
  unfold_handlers. unfold tagged_user, split. simpl.
  rewrite split_go_no_sep by done. simpl.
  destruct (decide (actor = owner)) as [-> | Hne].
  - rewrite bool_decide_eq_false_2 by (intros H; by apply H).
    by rewrite bool_decide_eq_true_2.
  - rewrite bool_decide_eq_true_2 by done.
    by rewrite bool_decide_eq_false_2.
Qed.

(** Witness: the delete button of user 42 pressed by user 42. *)
Lemma attached_controls_name_owner_witness :
  exec (handleDeleteIntroButton env_ok (act "42" "delete_intro_42"))
       published_world
  = add_reply (ReplyEphemeral MSG_CONFIRM_DELETE (confirm_buttons "42"))
      published_world.
Proof.
  apply (attached_controls_name_owner env_ok "42" "42" sample_fields
           published_world).
  apply (bool_decide_eq_false_1 (UNDERSCORE ∈ ("42" : jstring))).
  reflexivity.
Defined.

(** X16. Whatever the owner's id, the two buttons of a profile are routed to
    the update and the delete handler and the two buttons of a
    confirmation to the confirm and the cancel handler; the two modals go
    to their own handlers and any other modal to the project handler. *)
Theorem attached_controls_routed (owner : jstring) :
  button_route <$> (buttonId <$> profile_buttons owner)
  = [ToUpdateIntroButton; ToDeleteIntroButton]
  /\ button_route <$> (buttonId <$> confirm_buttons owner)
     = [ToConfirmDeleteIntro; ToCancelDeleteIntro]
  /\ modal_route "intro_modal" = ToIntroModal
  /\ modal_route "edit_profile_modal" = ToEditProfileModal
  /\ (forall id, id ≠ "intro_modal" -> id ≠ "edit_profile_modal" ->
        modal_route id = ToModalSubmit).
Proof.
  split_and!; try reflexivity.
  intros id H1 H2. unfold modal_route.
  by rewrite !bool_decide_eq_false_2.
Qed.
